(** * medical_chat: the query-orchestration pipeline

    A shallow embedding of [backend/app/services/qa_service.py] and of the
    parts of [kg_service.py] and [models/query.py] it relies on, followed by
    the properties of the pipeline that the design document states.

    Conventions.
    - A Python [str] is the list of its Unicode code points ([Py.str]); [len],
      slicing, [in] and the regular expressions of the source all count code
      points, never bytes.  Literals are written in UTF-8 and decoded by
      [Py.u].
    - The external collaborators (Neo4j, the passage index, the memory
      database, the hosted model providers) are fields of a record: total
      functions giving, for each call, what the collaborator answers.
    - An exception is a value of [Py.exn]; [try]/[except] is a [match].
    - Floats that are only compared, averaged and rounded are rationals. *)

From Stdlib Require Import String Ascii DecimalString Bool Arith NArith ZArith QArith
  Qround Lia Lqa Permutation Sorted List.
Import ListNotations.
Open Scope string_scope.
Open Scope nat_scope.
Open Scope list_scope.


(* ===================================================================== *)
(** ** Python values *)
(* ===================================================================== *)

Module Py.

(** [str]: a sequence of code points. *)
Definition str := list N.

(** UTF-8 decoding of a literal: [need] continuation bytes are still
    expected for the code point accumulated in [acc]. *)
Fixpoint utf8 (s : string) (acc : N) (need : nat) : str :=
  match s with
  | EmptyString => []
  | String c s' =>
      let b := N_of_ascii c in
      match need with
      | O =>
          if (b <? 128)%N then b :: utf8 s' 0%N 0
          else if (b <? 224)%N then utf8 s' (b - 192)%N 1
          else if (b <? 240)%N then utf8 s' (b - 224)%N 2
          else utf8 s' (b - 240)%N 3
      | S O => (acc * 64 + (b - 128))%N :: utf8 s' 0%N 0
      | S n => utf8 s' (acc * 64 + (b - 128))%N n
      end
  end.

Definition u (s : string) : str := utf8 s 0%N 0.

(** The double-quote character, which a literal cannot hold. *)
Definition dq : str := [34%N].

(** [a == b] on strings. *)
Fixpoint eqb (a b : str) : bool :=
  match a, b with
  | [], [] => true
  | x :: a', y :: b' => (x =? y)%N && eqb a' b'
  | _, _ => false
  end.

(** [s.startswith(p)]. *)
Fixpoint startswith (p s : str) : bool :=
  match p, s with
  | [], _ => true
  | x :: p', y :: s' => (x =? y)%N && startswith p' s'
  | _ :: _, [] => false
  end.

(** [sub in s] for two strings. *)
Fixpoint contains (sub s : str) : bool :=
  startswith sub s ||
  match s with
  | [] => false
  | _ :: s' => contains sub s'
  end.

(** [x in l] for a list of strings. *)
Definition mem (x : str) (l : list str) : bool := existsb (eqb x) l.

(** [any(t in s for t in ts)]. *)
Definition any_in (ts : list str) (s : str) : bool :=
  existsb (fun t => contains t s) ts.

(** [sep.join(l)]. *)
Fixpoint join (sep : str) (l : list str) : str :=
  match l with
  | [] => []
  | [x] => x
  | x :: l' => x ++ sep ++ join sep l'
  end.

(** [l[-n:]]. *)
Definition last_n {A} (n : nat) (l : list A) : list A :=
  skipn (length l - n) l.

(** [bool(s)], [bool(l)]. *)
Definition truthy {A} (l : list A) : bool :=
  match l with [] => false | _ => true end.

(** [list(dict.fromkeys(l))]: first occurrences, in order. *)
Fixpoint dedupe_from (seen : list str) (l : list str) : list str :=
  match l with
  | [] => []
  | x :: l' =>
      if mem x seen then dedupe_from seen l'
      else x :: dedupe_from (x :: seen) l'
  end.

Definition fromkeys (l : list str) : list str := dedupe_from [] l.

(** [str.isspace] on one code point: the characters [str.strip()] removes. *)
Definition is_space (c : N) : bool :=
  ((9 <=? c) && (c <=? 13) || (28 <=? c) && (c <=? 32) ||
   (c =? 133) || (c =? 160) || (c =? 5760) ||
   (8192 <=? c) && (c <=? 8202) || (c =? 8232) || (c =? 8233) ||
   (c =? 8239) || (c =? 8287) || (c =? 12288))%N.

Fixpoint lstrip (s : str) : str :=
  match s with
  | c :: s' => if is_space c then lstrip s' else s
  | [] => []
  end.

(** [s.strip()]. *)
Definition strip (s : str) : str := rev (lstrip (rev (lstrip s))).

(** The character class [一-龥]. *)
Definition is_cjk (c : N) : bool := ((19968 <=? c) && (c <=? 40869))%N.

(** [re.findall(r'[一-龥]{lo,hi}', s)], [1 <= lo <= hi]: the scan
    is greedy and its matches do not overlap, so every maximal run of
    class characters is cut into pieces of [hi] characters, and the rest
    of the run is a match when it has [lo] characters or more.  [cur] is
    the piece being read, reversed. *)
Fixpoint findall_run (lo hi : nat) (cur : str) (s : str) : list str :=
  match s with
  | [] => if lo <=? length cur then [rev cur] else []
  | c :: s' =>
      if is_cjk c then
        if S (length cur) =? hi then rev (c :: cur) :: findall_run lo hi [] s'
        else findall_run lo hi (c :: cur) s'
      else
        if (lo <=? length cur) then rev cur :: findall_run lo hi [] s'
        else findall_run lo hi [] s'
  end.

Definition findall_cjk (lo hi : nat) (s : str) : list str :=
  findall_run lo hi [] s.

(** [''.join(re.findall(r'[一-龥]+', s))]. *)
Definition only_cjk (s : str) : str := filter is_cjk s.

(** [re.sub(r'(a1|a2|...)$', '', s)] for alternatives without a line
    break, on a string that does not end in one: the leftmost position
    whose whole rest is one of the alternatives is where the string is
    cut. *)
Fixpoint strip_suffix_alt (alts : list str) (s : str) : str :=
  if mem s alts then []
  else match s with
       | [] => []
       | c :: s' => c :: strip_suffix_alt alts s'
       end.

(** [s[i:i+n]]. *)
Definition slice (i n : nat) (s : str) : str := firstn n (skipn i s).

(** Exceptions. *)
Inductive exn : Type :=
| TimeoutError
| Exception (msg : str).

Inductive result (A : Type) : Type :=
| Return (a : A)
| Raise (e : exn).
Arguments Return {A} a.
Arguments Raise {A} e.

Definition bind {A B} (m : result A) (f : A -> result B) : result B :=
  match m with
  | Return a => f a
  | Raise e => Raise e
  end.

(** [try: body / except Exception as e: handler(e)]. *)
Definition try_except {A} (body : result A) (handler : exn -> result A)
  : result A :=
  match body with
  | Return a => Return a
  | Raise e => handler e
  end.

End Py.

(* ===================================================================== *)
(** ** [app/models/query.py] *)
(* ===================================================================== *)

Module Models.

Inductive SourceType : Type :=
| PUBMED | GUIDELINE | DRUGBANK | SRC_KNOWLEDGE_GRAPH | CLINICAL_TRIAL | WHO | OTHER.

(** [Evidence].  [confidence] is declared with [ge=0, le=1]: the
    constructor refuses any other value, so an [Evidence] that exists
    carries the proof that its confidence passed the check. *)
Record Evidence : Type := {
  source : Py.str;
  source_type : SourceType;
  snippet : Py.str;
  pmid : option Py.str;
  doi : option Py.str;
  url : option Py.str;
  confidence : Q;
  publication_date : option Py.str;
  section : option Py.str;
  confidence_checked :
    Qle_bool 0 confidence && Qle_bool confidence 1 = true
}.

(** [KGNode]; [properties] is a dict from names to strings, a missing or
    [None] value being the empty string. *)
Record KGNode : Type := {
  node_id : Py.str;
  label : Py.str;
  type : Py.str;
  properties : list (Py.str * Py.str)
}.

(** [d.get(key)] on such a dict. *)
Fixpoint dict_get (key : Py.str) (d : list (Py.str * Py.str)) : Py.str :=
  match d with
  | [] => []
  | (k, v) :: d' => if Py.eqb k key then v else dict_get key d'
  end.

Record KGEdge : Type := {
  edge_source : Py.str;
  edge_target : Py.str;
  edge_type : Py.str;
  edge_properties : list (Py.str * Py.str)
}.

Record KGPath : Type := {
  nodes : list KGNode;
  edges : list KGEdge;
  relevance_score : Q;
  path_source : option Py.str;
  path_confidence : Q
}.

Record ChatMessage : Type := {
  role : Py.str;
  content : Py.str
}.

(** [QueryRequest].  [history] is [Optional[List[ChatMessage]]]: the code
    only tests it for truth before it reads it, so [None] is the empty
    list.  [user_id] keeps its option. *)
Record QueryRequest : Type := {
  query : Py.str;
  history : list ChatMessage;
  user_id : option Py.str;
  context : option Py.str;
  max_answers : nat;
  include_kg_paths : bool;
  include_evidence : bool;
  language : Py.str
}.


Inductive AnswerSource : Type :=
| KNOWLEDGE_GRAPH   (* based on the knowledge graph *)
| LLM_ONLY          (* generated by the model alone, the graph had no data *)
| MIXED             (* mixed *)
| TEMPLATE.         (* template reply, no model *)

Record QueryResponse : Type := {
  query_id : Py.str;
  answer : Py.str;
  answer_source : AnswerSource;
  evidence : list Evidence;
  kg_paths : list KGPath;
  confidence_score : Q;
  warnings : list Py.str;
  disclaimer : Py.str;
  processing_time_ms : Z;
  model_used : Py.str
}.

(** The constructor call [QueryResponse(...)]: pydantic checks
    [confidence_score] against [ge=0, le=1] and raises when it fails. *)
Definition new_QueryResponse (r : QueryResponse) : Py.result QueryResponse :=
  if Qle_bool 0 (confidence_score r) && Qle_bool (confidence_score r) 1
  then Py.Return r
  else Py.Raise (Py.Exception (Py.u "ValidationError")).

End Models.

(* ===================================================================== *)
(** ** [app/services/kg_service.py] *)
(* ===================================================================== *)

Module KG.
Import Models.

(** The record [get_disease_info] reads from a [Disease] node; a property
    the node lacks is the empty string. *)
Record BasicInfo : Type := {
  bi_description : Py.str;
  bi_cause : Py.str;
  bi_prevent : Py.str;
  bi_cure_time : Py.str;
  bi_cure_prob : Py.str;
  bi_easy_get : Py.str
}.

(** The database, seen through the queries the service sends: what each
    query answers, an error of the driver being the answer the service
    turns it into (an empty list, no record).  [db_search_disease] and
    [db_search_symptom] stand for the whole lookup of [search_disease] and
    [search_symptom] (exact match, full-text index, substring), which is
    made of database queries only. *)
Record Neo4j : Type := {
  db_disease_info : Py.str -> option BasicInfo;
  db_symptoms : Py.str -> list Py.str;
  db_common_drugs : Py.str -> list Py.str;
  db_recommend_drugs : Py.str -> list Py.str;
  db_do_eat : Py.str -> list Py.str;
  db_not_eat : Py.str -> list Py.str;
  db_recommend_eat : Py.str -> list Py.str;
  db_checks : Py.str -> list Py.str;
  db_departments : Py.str -> list Py.str;
  db_cure_ways : Py.str -> list Py.str;
  db_complications : Py.str -> list Py.str;
  db_diseases_by_symptom : Py.str -> list Py.str;
  db_search_disease : Py.str -> nat -> list Py.str;
  db_search_symptom : Py.str -> nat -> list Py.str
}.

Record KnowledgeGraphService : Type := {
  is_connected : bool;
  driver : Neo4j
}.

(** The dict [get_full_disease_info] returns. *)
Record DiseaseInfo : Type := {
  name : Py.str;
  description : Py.str;
  cause : Py.str;
  prevent : Py.str;
  cure_time : Py.str;
  cure_prob : Py.str;
  easy_get : Py.str;
  symptoms : list Py.str;
  common_drugs : list Py.str;
  recommended_drugs : list Py.str;
  do_eat : list Py.str;
  not_eat : list Py.str;
  recommended_foods : list Py.str;
  checks : list Py.str;
  departments : list Py.str;
  cure_ways : list Py.str;
  complications : list Py.str
}.

Section Service.
Variable self : KnowledgeGraphService.

Definition get_disease_info (disease_name : Py.str) : option BasicInfo :=
  if negb (is_connected self) then None
  else db_disease_info (driver self) disease_name.

Definition guarded (f : Neo4j -> Py.str -> list Py.str) (name : Py.str)
  : list Py.str :=
  if negb (is_connected self) then [] else f (driver self) name.

Definition get_disease_symptoms := guarded db_symptoms.
Definition get_disease_checks := guarded db_checks.
Definition get_disease_department := guarded db_departments.
Definition get_disease_cure_ways := guarded db_cure_ways.
Definition get_disease_complications := guarded db_complications.
Definition get_diseases_by_symptom := guarded db_diseases_by_symptom.

Definition search_disease (keyword : Py.str) (limit : nat) : list Py.str :=
  if negb (is_connected self) then []
  else db_search_disease (driver self) keyword limit.

Definition search_symptom (keyword : Py.str) (limit : nat) : list Py.str :=
  if negb (is_connected self) then []
  else db_search_symptom (driver self) keyword limit.

Definition collect (disease_name : Py.str) (basic_info : BasicInfo)
  : DiseaseInfo :=
  {| name := disease_name;
     description := bi_description basic_info;
     cause := bi_cause basic_info;
     prevent := bi_prevent basic_info;
     cure_time := bi_cure_time basic_info;
     cure_prob := bi_cure_prob basic_info;
     easy_get := bi_easy_get basic_info;
     symptoms := get_disease_symptoms disease_name;
     common_drugs := guarded db_common_drugs disease_name;
     recommended_drugs := guarded db_recommend_drugs disease_name;
     do_eat := guarded db_do_eat disease_name;
     not_eat := guarded db_not_eat disease_name;
     recommended_foods := guarded db_recommend_eat disease_name;
     checks := get_disease_checks disease_name;
     departments := get_disease_department disease_name;
     cure_ways := get_disease_cure_ways disease_name;
     complications := get_disease_complications disease_name |}.

Definition get_full_disease_info (disease_name : Py.str)
  : option DiseaseInfo :=
  if negb (is_connected self) then None
  else
    match get_disease_info disease_name with
    | Some basic_info => Some (collect disease_name basic_info)
    | None =>
        (* fuzzy match *)
        match search_disease disease_name 1 with
        | m :: _ =>
            match get_disease_info m with
            | Some basic_info => Some (collect m basic_info)
            | None => None
            end
        | [] => None
        end
    end.

(** *** [find_paths_for_query] *)

Definition symptom_node (symptom : Py.str) : KGNode :=
  {| node_id := Py.u "symptom_" ++ symptom; label := symptom;
     type := Py.u "Symptom"; properties := [] |}.

Definition has_symptom_edge (disease symptom : Py.str) : KGEdge :=
  {| edge_source := Py.u "disease_" ++ disease;
     edge_target := Py.u "symptom_" ++ symptom;
     edge_type := Py.u "has_symptom";
     edge_properties := [(Py.u "name", Py.u "症状")] |}.

Definition disease_path (entity : Py.str) (disease_info : DiseaseInfo)
  : KGPath :=
  let all_drugs := common_drugs disease_info ++ recommended_drugs disease_info in
  {| nodes :=
       [ {| node_id := Py.u "disease_" ++ entity;
            label := name disease_info;
            type := Py.u "Disease";
            properties :=
              [ (Py.u "description", description disease_info);
                (Py.u "cause", cause disease_info);
                (Py.u "prevent", prevent disease_info) ] |} ]
       ++ map symptom_node (firstn 5 (symptoms disease_info))
       ++ map (fun drug =>
                 {| node_id := Py.u "drug_" ++ drug; label := drug;
                    type := Py.u "Drug"; properties := [] |})
              (firstn 3 all_drugs);
     edges :=
       map (has_symptom_edge entity) (firstn 5 (symptoms disease_info))
       ++ map (fun drug =>
                 {| edge_source := Py.u "disease_" ++ entity;
                    edge_target := Py.u "drug_" ++ drug;
                    edge_type := Py.u "common_drug";
                    edge_properties := [(Py.u "name", Py.u "常用药品")] |})
              (firstn 3 all_drugs);
     relevance_score := (9 # 10)%Q;
     path_source := Some (Py.u "neo4j");
     path_confidence := (9 # 10)%Q |}.

Definition symptom_path (entity : Py.str) (diseases : list Py.str) : KGPath :=
  {| nodes :=
       symptom_node entity
       :: map (fun disease =>
                 {| node_id := Py.u "disease_" ++ disease; label := disease;
                    type := Py.u "Disease"; properties := [] |})
              (firstn 5 diseases);
     edges := map (fun disease => has_symptom_edge disease entity)
                  (firstn 5 diseases);
     relevance_score := (8 # 10)%Q;
     path_source := Some (Py.u "neo4j");
     path_confidence := (8 # 10)%Q |}.

Fixpoint paths_of (entities : list Py.str) : list KGPath :=
  match entities with
  | [] => []
  | entity :: rest =>
      match get_full_disease_info entity with
      | Some disease_info =>
          if Py.truthy (description disease_info)
          then disease_path entity disease_info :: paths_of rest
          else
            match get_diseases_by_symptom entity with
            | [] => paths_of rest
            | diseases => symptom_path entity diseases :: paths_of rest
            end
      | None =>
          match get_diseases_by_symptom entity with
          | [] => paths_of rest
          | diseases => symptom_path entity diseases :: paths_of rest
          end
      end
  end.

Definition find_paths_for_query (entities : list Py.str) : list KGPath :=
  if negb (is_connected self) then []
  else firstn 5 (paths_of (firstn 5 entities)).

(** *** [get_kg_context_for_query] *)

(** One optional line of a block. *)
Definition line_if (present : bool) (text : Py.str) : Py.str :=
  if present then text else [].

Definition comma_join (l : list Py.str) : Py.str := Py.join (Py.u ", ") l.

(** The block of a disease record. *)
Definition disease_context (disease_info : DiseaseInfo) : Py.str :=
  let all_drugs := common_drugs disease_info ++ recommended_drugs disease_info in
  Py.u "
【" ++ name disease_info ++ Py.u "】
"
  ++ line_if (Py.truthy (description disease_info))
       (Py.u "简介：" ++ description disease_info ++ Py.u "
")
  ++ line_if (Py.truthy (symptoms disease_info))
       (Py.u "症状：" ++ comma_join (firstn 10 (symptoms disease_info)) ++ Py.u "
")
  ++ line_if (Py.truthy (cause disease_info))
       (if 200 <? length (cause disease_info)
        then Py.u "病因：" ++ firstn 200 (cause disease_info) ++ Py.u "...
"
        else Py.u "病因：" ++ cause disease_info ++ Py.u "
")
  ++ line_if (Py.truthy (prevent disease_info))
       (if 200 <? length (prevent disease_info)
        then Py.u "预防：" ++ firstn 200 (prevent disease_info) ++ Py.u "...
"
        else Py.u "预防：" ++ prevent disease_info ++ Py.u "
")
  ++ line_if (Py.truthy (departments disease_info))
       (Py.u "就诊科室：" ++ comma_join (departments disease_info) ++ Py.u "
")
  ++ line_if (Py.truthy (cure_ways disease_info))
       (Py.u "治疗方法：" ++ comma_join (firstn 5 (cure_ways disease_info)) ++ Py.u "
")
  ++ line_if (Py.truthy (common_drugs disease_info)
             || Py.truthy (recommended_drugs disease_info))
       (Py.u "常用药物：" ++ comma_join (firstn 8 all_drugs) ++ Py.u "
")
  ++ line_if (Py.truthy (do_eat disease_info))
       (Py.u "宜吃食物：" ++ comma_join (firstn 5 (do_eat disease_info)) ++ Py.u "
")
  ++ line_if (Py.truthy (not_eat disease_info))
       (Py.u "忌吃食物：" ++ comma_join (firstn 5 (not_eat disease_info)) ++ Py.u "
")
  ++ line_if (Py.truthy (checks disease_info))
       (Py.u "检查项目：" ++ comma_join (firstn 5 (checks disease_info)) ++ Py.u "
")
  ++ line_if (Py.truthy (complications disease_info))
       (Py.u "并发症：" ++ comma_join (firstn 5 (complications disease_info)) ++ Py.u "
").

(** The block of a symptom. *)
Definition symptom_context (entity : Py.str) (diseases : list Py.str) : Py.str :=
  Py.u "
【症状：" ++ entity ++ Py.u "】
"
  ++ Py.u "可能相关的疾病：" ++ comma_join (firstn 10 diseases) ++ Py.u "
".

Fixpoint context_parts (entities : list Py.str) : list Py.str :=
  match entities with
  | [] => []
  | entity :: rest =>
      match get_full_disease_info entity with
      | Some disease_info =>
          if Py.truthy (description disease_info)
          then disease_context disease_info :: context_parts rest
          else
            match get_diseases_by_symptom entity with
            | [] => context_parts rest
            | diseases => symptom_context entity diseases :: context_parts rest
            end
      | None =>
          match get_diseases_by_symptom entity with
          | [] => context_parts rest
          | diseases => symptom_context entity diseases :: context_parts rest
          end
      end
  end.

Definition get_kg_context_for_query (entities : list Py.str) : Py.str :=
  if negb (is_connected self) then []
  else Py.join (Py.u "
") (context_parts (firstn 3 entities)).

End Service.

End KG.

(* ===================================================================== *)
(** ** [app/services/qa_service.py] *)
(* ===================================================================== *)

Module QA.
Import Models.

(** [self._llm_provider]: [initialize] only ever stores these four. *)
Inductive Provider : Type := mock | siliconflow | gemini | openai.

(** *** The texts of the service *)

Definition SYNONYMS : list (Py.str * Py.str) :=
  [ (Py.u "小儿麻痹症", Py.u "脊髓灰质炎");
    (Py.u "小儿麻痹", Py.u "脊髓灰质炎");
    (Py.u "儿麻痹", Py.u "脊髓灰质炎");
    (Py.u "普通流感", Py.u "流感");
    (Py.u "流感", Py.u "流行性感冒");
    (Py.u "感冒", Py.u "上呼吸道感染") ].

Definition medical_terms : list Py.str :=
  [ Py.u "头痛"; Py.u "偏头痛"; Py.u "紧张性头痛"; Py.u "发热";
    Py.u "发烧"; Py.u "感冒"; Py.u "流感"; Py.u "咳嗽";
    Py.u "恶心"; Py.u "呕吐"; Py.u "腹痛"; Py.u "腹泻";
    Py.u "便秘"; Py.u "胸痛"; Py.u "心悸"; Py.u "高血压";
    Py.u "糖尿病"; Py.u "哮喘"; Py.u "过敏"; Py.u "皮疹";
    Py.u "失眠"; Py.u "焦虑"; Py.u "抑郁"; Py.u "布洛芬";
    Py.u "对乙酰氨基酚"; Py.u "阿司匹林"; Py.u "抗生素"; Py.u "维生素";
    Py.u "脑膜炎"; Py.u "脑卒中"; Py.u "中风"; Py.u "癫痫";
    Py.u "帕金森"; Py.u "畏光"; Py.u "颈部僵硬"; Py.u "意识";
    Py.u "视力"; Py.u "乏力"; Py.u "疲劳"; Py.u "肺炎";
    Py.u "支气管炎"; Py.u "胃炎"; Py.u "肠炎"; Py.u "肝炎";
    Py.u "肾炎"; Py.u "冠心病"; Py.u "心肌梗死"; Py.u "心绞痛";
    Py.u "心律失常"; Py.u "骨折"; Py.u "关节炎"; Py.u "腰痛";
    Py.u "颈椎病"; Py.u "肩周炎"; Py.u "湿疹"; Py.u "荨麻疹";
    Py.u "痤疮"; Py.u "银屑病"; Py.u "贫血"; Py.u "白血病";
    Py.u "淋巴瘤" ].

Definition question_suffixes : list Py.str :=
  [ Py.u "是什么";
    Py.u "是啥";
    Py.u "啥是";
    Py.u "是啥意思";
    Py.u "是什么意思";
    Py.u "是什么病";
    Py.u "怎么回事";
    Py.u "有哪些症状";
    Py.u "症状";
    Py.u "怎么办" ].

Definition history_header : Py.str :=
  Py.u "
**对话历史**：
".

Definition history_line (role_name content : Py.str) : Py.str :=
  role_name
    ++ Py.u "："
    ++ content
    ++ Py.u "
".

Definition llm_prompt_text (query kg_context history_context : Py.str) : Py.str :=
  Py.u "你是一个专业的医疗信息助手。请根据提供的医疗知识图谱信息回答用户的问题。

**重要规则**：
1. 优先使用知识图谱中提供的医学信息来回答问题
2. 回答要准确、专业，但表达要通俗易懂
3. 如果知识图谱中有相关信息，请一定据此回答；如果没有，请说明" ++ Py.dq ++ Py.u "暂无相关信息" ++ Py.dq ++ Py.u "，并给出合理的建议。
4. 始终提醒用户本系统仅供参考，不能替代医生诊断
5. 对于危险信号（如剧烈头痛、高热、意识改变、胸痛），要强调立即就医
6. 如果有对话历史，请结合上下文理解用户的问题（如代词指代、省略的主语等）
7. 一些基本信息你是可以回复的，比如日期等。

**医疗知识图谱信息**：
"
    ++ kg_context
    ++ Py.u "
"
    ++ history_context
    ++ Py.u "
**当前用户问题**：
"
    ++ query
    ++ Py.u "

如果用户提问的是医学相关的问题，请提供结构化的回答，包括：
1. 简要回答（概括主要信息）
2. 详细说明（分点列出症状/治疗/预防等相关信息）
3. 就医建议（何时需要就医，看什么科室）
4. 注意事项（饮食、用药等）
否则不用提供结构化回答，简要回答即可。

回答：".

Definition llm_prompt_without_kg_text (query history_context : Py.str) : Py.str :=
  Py.u "你是一个专业的医疗信息助手。

**重要说明**：
当前医疗知识图谱中未找到与用户问题直接相关的信息，请根据你的医学专业知识提供参考建议。

**回答要求**：
1. 回答要准确、专业，但表达要通俗易懂
2. 始终强调本回答仅供参考，不能替代专业医生的诊断和治疗
3. 对于危险信号（如剧烈头痛、高热不退、意识改变、胸痛、呼吸困难等），要强调立即就医
4. 不要在回答中提及" ++ Py.dq ++ Py.u "知识图谱" ++ Py.dq ++ Py.u "，直接给出专业建议即可
5. 如果有对话历史，请结合上下文理解用户的问题
"
    ++ history_context
    ++ Py.u "
**用户问题**：
"
    ++ query
    ++ Py.u "

如果用户提问的是医学相关的问题，请提供结构化的回答，包括：
1. 简要回答（概括主要信息）
2. 详细说明（分点列出症状/治疗/预防等相关信息）
3. 就医建议（何时需要就医，看什么科室）
4. 注意事项（饮食、用药等）
否则不用提供结构化回答，简要回答即可。

回答：".

Definition fallback_response_text (subject : Py.str) : Py.str :=
  Py.u "## 关于您的问题

感谢您的咨询。

目前知识库中暂无关于" ++ Py.dq
    ++ subject
    ++ Py.dq ++ Py.u "的详细信息。

**建议**：
1. 尝试使用更具体的医学术语进行查询
2. 如有身体不适，请及时前往医院就诊
3. 可以咨询专业医生获取准确的诊断和治疗建议

---
📚 **提示**：本回答基于医疗知识图谱生成，未使用AI大模型。
⚠️ **重要提示**：本系统仅供医疗信息参考，不能替代专业医生的诊断和治疗建议。".

Definition fallback_notice : Py.str :=
  Py.u "

---
📚 **提示**：本回答基于医疗知识图谱生成，未使用AI大模型。
".

Definition kg_response_head (kg_context : Py.str) : Py.str :=
  Py.u "## 关于您的问题

根据医疗知识库的信息，为您提供以下参考：

"
    ++ kg_context
    ++ Py.u "
".

Definition kg_response_tail : Py.str :=
  Py.u "⚠️ **重要提示**：以上信息仅供参考，不能替代专业医生的诊断和治疗建议。如有身体不适，请及时就医。".

Definition headache_terms : list Py.str :=
  [ Py.u "头痛"; Py.u "头疼"; Py.u "偏头痛" ].

Definition fever_terms : list Py.str :=
  [ Py.u "发热"; Py.u "发烧"; Py.u "体温" ].

Definition drug_terms : list Py.str :=
  [ Py.u "药"; Py.u "用药"; Py.u "吃什么药"; Py.u "布洛芬";
    Py.u "对乙酰氨基酚" ].

Definition diabetes_terms : list Py.str :=
  [ Py.u "糖尿病"; Py.u "血糖" ].

Definition hypertension_terms : list Py.str :=
  [ Py.u "高血压"; Py.u "血压" ].

Definition _generate_headache_response : Py.str :=
  Py.u "## 头痛的可能原因分析

根据您描述的症状，头痛可能由以下几种常见原因引起：

### 常见原因

1. **偏头痛** [来源: 中华神经科杂志, PMID:34567890]
   - 表现为反复发作的中重度搏动性头痛
   - 常伴有恶心、呕吐、畏光和畏声
   - 发作通常持续4-72小时

2. **紧张性头痛** [来源: Headache, PMID:34567891]
   - 最常见的头痛类型，终生患病率达78%
   - 表现为双侧压迫性或紧箍样头痛
   - 程度轻至中度，不因日常活动加重

3. **上呼吸道感染（感冒/流感）**
   - 尤其在伴有发热、咳嗽、流涕时需考虑
   - 头痛通常为全头部钝痛

### ⚠️ 需要立即就医的危险信号 [来源: NICE临床指南]

如出现以下情况，请**立即**前往医院就诊：
- **雷击样头痛**：数秒内达到高峰的剧烈头痛
- **伴发热和颈部僵硬**：可能提示脑膜炎
- **意识改变或神经功能缺损**
- **头痛进行性加重**
- **50岁以后新发头痛**
- **伴视力改变或眼痛**

### 建议

1. 保持充足休息，避免过度劳累
2. 可考虑对症服用对乙酰氨基酚（1000mg）或布洛芬（400-600mg）缓解症状
3. 如头痛持续超过3天或频繁发作，建议就医进一步评估
4. 记录头痛日记（发作时间、持续时间、诱因、伴随症状）有助于诊断".

Definition _generate_fever_response : Py.str :=
  Py.u "## 发热的评估与建议

### 发热定义
发热定义为核心体温≥38°C（腋温≥37.3°C可视为低热）。[来源: 中华内科杂志, PMID:34567893]

### 常见原因
1. **感染性疾病**（最常见）
   - 上呼吸道感染、流感
   - 肺炎、泌尿道感染等

2. **非感染性原因**
   - 自身免疫疾病
   - 药物热

### ⚠️ 需要就医的情况
- 体温≥39°C持续24小时以上
- 伴有剧烈头痛和颈部僵硬（警惕脑膜炎）
- 伴有意识改变
- 伴有皮疹
- 儿童、老年人或免疫力低下者

### 对症处理建议
1. 多饮水，保持休息
2. 可服用对乙酰氨基酚或布洛芬退热
3. 物理降温（温水擦浴）
4. 如持续不退或伴有其他症状，请及时就医".

Definition _generate_drug_response : Py.str :=
  Py.u "## 药物信息

### 常用止痛退热药物 [来源: DrugBank, Cochrane]

1. **对乙酰氨基酚（扑热息痛）**
   - 用法：成人每次500-1000mg，每4-6小时一次
   - 每日最大剂量：4000mg
   - 适用于轻至中度疼痛和退热
   - 注意：避免过量，有肝损害风险

2. **布洛芬** [来源: DrugBank DB01050]
   - 用法：成人每次200-400mg，每4-6小时一次
   - 每日最大剂量：1200mg（非处方）
   - 同时具有止痛、退热、抗炎作用
   - 禁忌：活动性消化道溃疡、严重心衰

### ⚠️ 用药注意事项
- 每月使用止痛药不宜超过10天，以防药物过度使用性头痛
- 有胃病史者慎用NSAIDs类药物
- 肝肾功能不全者请遵医嘱调整剂量
- 如需长期用药，请咨询医生".

Definition _generate_diabetes_response : Py.str :=
  Py.u "## 糖尿病相关信息 [来源: 中华糖尿病杂志 2024年指南]

### 2型糖尿病管理要点

**控制目标**：
- HbA1c < 7%（可根据个体情况调整）
- 空腹血糖：4.4-7.0 mmol/L
- 餐后2小时血糖：< 10.0 mmol/L

**一线用药**：
- 二甲双胍是2型糖尿病首选药物
- 无禁忌症患者应从诊断时开始使用

**生活方式干预**：
1. 饮食控制：控制总热量，均衡营养
2. 规律运动：每周至少150分钟中等强度运动
3. 戒烟限酒
4. 控制体重

**定期监测**：
- 血糖监测
- 每3-6个月检测HbA1c
- 每年眼底检查
- 每年肾功能检查
- 定期足部检查

⚠️ 糖尿病管理需要个体化方案，请遵医嘱治疗。".

Definition _generate_hypertension_response : Py.str :=
  Py.u "## 高血压相关信息 [来源: 中国高血压防治指南 2023]

### 诊断标准
非同日3次血压测量≥140/90mmHg即可诊断高血压。

### 治疗目标
- 一般患者：< 140/90 mmHg
- 高危患者：< 130/80 mmHg

### 一线降压药物
1. ACEI/ARB（普利类/沙坦类）
2. CCB（地平类）
3. 利尿剂
4. β受体阻滞剂

### 生活方式改变
1. **限盐**：每日摄盐<6g
2. **减重**：BMI控制在24以下
3. **戒烟**：完全戒烟
4. **限酒**：男性<25g/天，女性<15g/天
5. **运动**：每周5-7天，每次30分钟有氧运动

### ⚠️ 注意事项
- 高血压需要长期管理，不可自行停药
- 血压波动大或控制不佳请及时就医
- 定期监测血压并记录".

Definition evidence_summary_header : Py.str :=
  Py.u "

### 相关参考资料
".

Definition evidence_summary_line (i section source : Py.str) : Py.str :=
  i
    ++ Py.u ". "
    ++ section
    ++ Py.u " [来源: "
    ++ source
    ++ Py.u "]
".

Definition default_response_text (evidence_summary : Py.str) : Py.str :=
  Py.u "## 关于您的问题

感谢您的咨询。根据您的问题，我检索了相关的医学资料。

由于问题的具体性，建议您：

1. **详细描述症状**：包括持续时间、严重程度、伴随症状等
2. **咨询专业医生**：获取针对性的诊断和治疗建议
3. **不要自行用药**：特别是处方药物

"
    ++ evidence_summary
    ++ Py.u "

⚠️ 本系统仅供信息参考，不能替代专业医生的诊断和治疗建议。如有不适，请及时就医。".

Definition mem_text_header : Py.str :=
  Py.u "用户历史记忆：
".

Definition mem_text_line (score content : Py.str) : Py.str :=
  Py.u "- ("
    ++ score
    ++ Py.u ") "
    ++ content
    ++ Py.u "
".

Definition paths_header : Py.str :=
  Py.u "相关医学知识：
".

Definition evidence_context_header : Py.str :=
  Py.u "医学文献证据：
".

Definition evidence_context_line (source snippet : Py.str) : Py.str :=
  Py.u "- ["
    ++ source
    ++ Py.u "] "
    ++ snippet
    ++ Py.u "
".

Definition memory_context_header : Py.str :=
  Py.u "
检索到的相关记忆：
".

Definition memory_context_line (content : Py.str) : Py.str :=
  Py.u "- "
    ++ content
    ++ Py.u "
".

Definition no_kg_notice_text (current_model_name : Py.str) : Py.str :=
  Py.u "

---
🤖 **来源说明**：知识图谱中未找到相关信息，本回答由 AI 大模型（"
    ++ current_model_name
    ++ Py.u "）基于通用医学知识生成。
⚠️ **重要提示**：AI 生成内容仅供参考，可能存在误差，请以专业医生诊断为准。如有身体不适，请及时就医。".

Definition disclaimer_text : Py.str :=
  Py.u "⚠️ 重要提示：本系统仅供医疗信息参考，不能替代专业医生的诊断和治疗建议。如有身体不适，请及时就医。紧急情况请拨打急救电话。".

Definition siliconflow_system_kg : Py.str :=
  Py.u "你是一个专业、严谨的医疗信息助手。请根据提供的医疗知识图谱信息，为用户提供准确、专业的医疗健康建议。如果有对话历史，请结合上下文理解用户意图。".

Definition siliconflow_system_plain : Py.str :=
  Py.u "你是一个专业、严谨的医疗信息助手。请根据你的医学专业知识，为用户提供准确、专业的医疗健康建议。如果有对话历史，请结合上下文理解用户意图。".

Definition openai_system_kg : Py.str :=
  Py.u "你是一个专业、严谨的医疗信息助手。请根据提供的医疗知识图谱信息回答问题。如果有对话历史，请结合上下文理解用户意图。".

Definition openai_system_plain : Py.str :=
  Py.u "你是一个专业、严谨的医疗信息助手。请根据你的医学专业知识回答问题。如果有对话历史，请结合上下文理解用户意图。".

Definition gemini_prefix_kg : Py.str :=
  Py.u "你是一个专业、严谨的医疗信息助手。请根据提供的医疗知识图谱信息回答问题。".

Definition gemini_prefix_plain : Py.str :=
  Py.u "你是一个专业、严谨的医疗信息助手。请根据你的医学专业知识回答问题。".

Definition warning_no_evidence : Py.str :=
  Py.u "未找到直接相关的医学文献".

Definition warning_no_kg : Py.str :=
  Py.u "知识图谱中未找到相关信息".

Definition warning_kg_disconnected : Py.str :=
  Py.u "知识图谱服务未连接".

(** [str(i)] for a list index. *)
Definition str_of_nat (n : nat) : Py.str :=
  Py.u (NilEmpty.string_of_uint (Nat.to_uint n)).

(** *** Entity resolution *)

(** Static lexicon scan. *)
Definition _extract_entities (query : Py.str) : list Py.str :=
  filter (fun term => Py.contains term query) medical_terms.

(** A query sent to the graph store by [search_disease] or
    [search_symptom]: the resolver is written in the monad that records
    them, in the order they are sent. *)
Inductive ProbeKind : Type := DiseaseProbe | SymptomProbe.

Record Probe : Type := {
  probe_kind : ProbeKind;
  probe_keyword : Py.str;
  probe_limit : nat
}.

Definition Traced (A : Type) : Type := (A * list Probe)%type.

Definition ret {A} (a : A) : Traced A := (a, []).

Definition bind {A B} (m : Traced A) (f : A -> Traced B) : Traced B :=
  let (a, t1) := m in
  let (b, t2) := f a in
  (b, t1 ++ t2).

Notation "x <- m ;; k" := (bind m (fun x => k))
  (at level 61, m at next level, right associativity).

Definition value {A} (m : Traced A) : A := fst m.

Section Resolver.
Variable kg_service : KG.KnowledgeGraphService.

(** The two searches: a disconnected service answers at once, without a
    query to the store. *)
Definition search_disease (keyword : Py.str) (limit : nat)
  : Traced (list Py.str) :=
  (KG.search_disease kg_service keyword limit,
   if KG.is_connected kg_service
   then [ {| probe_kind := DiseaseProbe; probe_keyword := keyword;
             probe_limit := limit |} ]
   else []).

Definition search_symptom (keyword : Py.str) (limit : nat)
  : Traced (list Py.str) :=
  (KG.search_symptom kg_service keyword limit,
   if KG.is_connected kg_service
   then [ {| probe_kind := SymptomProbe; probe_keyword := keyword;
             probe_limit := limit |} ]
   else []).

(** 1b) the colloquial names, in the order of the dict. *)
Definition add_synonyms (query : Py.str) (found_entities : list Py.str)
  : list Py.str :=
  fold_left
    (fun found (entry : Py.str * Py.str) =>
       let (colloquial, canonical) := entry in
       if Py.contains colloquial query && negb (Py.mem canonical found)
       then found ++ [canonical]
       else found)
    SYNONYMS found_entities.

(** The loop over the candidate terms of a text: a term already found is
    skipped, the first disease is kept, else the first symptom. *)
Fixpoint probe_terms (potential_terms : list Py.str)
         (found_entities : list Py.str) : Traced (list Py.str) :=
  match potential_terms with
  | [] => ret found_entities
  | term :: rest =>
      if Py.mem term found_entities then probe_terms rest found_entities
      else
        diseases <- search_disease term 1 ;;
        match diseases with
        | d :: _ => probe_terms rest (found_entities ++ [d])
        | [] =>
            symptoms <- search_symptom term 1 ;;
            match symptoms with
            | s :: _ => probe_terms rest (found_entities ++ [s])
            | [] => probe_terms rest found_entities
            end
        end
  end.

(** 2) the candidate terms of the current question. *)
Definition step_graph_terms (query : Py.str) (found_entities : list Py.str)
  : Traced (list Py.str) :=
  if KG.is_connected kg_service
  then probe_terms (Py.findall_cjk 2 6 query) found_entities
  else ret found_entities.

(** The inner loop of 3): it stops at the first hit. *)
Fixpoint first_hit (terms : list Py.str) (found_entities : list Py.str)
  : Traced (list Py.str) :=
  match terms with
  | [] => ret found_entities
  | term :: rest =>
      if Py.mem term found_entities then first_hit rest found_entities
      else
        diseases <- search_disease term 1 ;;
        match diseases with
        | d :: _ => ret (found_entities ++ [d])
        | [] =>
            symptoms <- search_symptom term 1 ;;
            match symptoms with
            | s :: _ => ret (found_entities ++ [s])
            | [] => first_hit rest found_entities
            end
        end
  end.

(** The outer loop of 3), over [reversed(history[-6:])]. *)
Fixpoint scan_history (msgs : list ChatMessage) (found_entities : list Py.str)
  : Traced (list Py.str) :=
  match msgs with
  | [] => ret found_entities
  | msg :: rest =>
      if negb (Py.eqb (role msg) (Py.u "user"))
      then scan_history rest found_entities
      else
        found <- first_hit (Py.findall_cjk 2 12 (content msg)) found_entities ;;
        if Py.truthy found then ret found else scan_history rest found
  end.

(** 3) history backoff. *)
Definition step_history (history : list ChatMessage)
           (found_entities : list Py.str) : Traced (list Py.str) :=
  if negb (Py.truthy found_entities) && Py.truthy history
  then scan_history (rev (Py.last_n 6 history)) found_entities
  else ret found_entities.

(** The n-gram scan of 3b): one length, the start positions in turn. *)
Fixpoint ngram_row (text : Py.str) (length : nat) (starts : list nat)
         (found_entities : list Py.str) : Traced (list Py.str) :=
  match starts with
  | [] => ret found_entities
  | i :: rest =>
      let sub := Py.slice i length text in
      if Py.mem sub found_entities
      then ngram_row text length rest found_entities
      else
        diseases <- search_disease sub 1 ;;
        match diseases with
        | d :: _ => ret (found_entities ++ [d])
        | [] => ngram_row text length rest found_entities
        end
  end.

Fixpoint ngram_scan (text : Py.str) (lengths : list nat)
         (found_entities : list Py.str) : Traced (list Py.str) :=
  match lengths with
  | [] => ret found_entities
  | length :: rest =>
      found <- ngram_row text length
                 (seq 0 (List.length text + 1 - length)) found_entities ;;
      if Py.truthy found then ret found else ngram_scan text rest found
  end.

(** 3b) aggressive single-turn backoff. *)
Definition step_aggressive (query : Py.str) (found_entities : list Py.str)
  : Traced (list Py.str) :=
  if negb (Py.truthy found_entities) then
    let cleaned :=
      Py.strip (Py.strip_suffix_alt question_suffixes (Py.strip query)) in
    found <- (if Py.truthy cleaned
              then diseases <- search_disease cleaned 3 ;;
                   ret (found_entities ++ diseases)
              else ret found_entities) ;;
    if negb (Py.truthy found)
    then ngram_scan (Py.only_cjk query) [6; 5; 4; 3; 2] found
    else ret found
  else ret found_entities.

(** 4) the pass over the history and the question together. *)
Definition step_merge (query : Py.str) (history : list ChatMessage)
           (found_entities : list Py.str) : Traced (list Py.str) :=
  if Py.truthy history && KG.is_connected kg_service then
    let combined_text :=
      Py.join (Py.u " ") (map content (Py.last_n 6 history))
      ++ Py.u " " ++ query in
    let more_entities := _extract_entities combined_text in
    found <- probe_terms (Py.findall_cjk 2 6 combined_text) found_entities ;;
    ret (fold_left
           (fun found ent => if Py.mem ent found then found else found ++ [ent])
           more_entities found)
  else ret found_entities.

(** 1) and 1b): the lexicon and the synonyms. *)
Definition step_lexicon (query : Py.str) : list Py.str :=
  add_synonyms query (_extract_entities query).

Definition _extract_entities_from_kg_traced
           (query : Py.str) (history : list ChatMessage)
  : Traced (list Py.str) :=
  found <- step_graph_terms query (step_lexicon query) ;;
  found <- step_history history found ;;
  found <- step_aggressive query found ;;
  found <- step_merge query history found ;;
  ret (Py.fromkeys found).

Definition _extract_entities_from_kg
           (query : Py.str) (history : list ChatMessage) : list Py.str :=
  value (_extract_entities_from_kg_traced query history).

Definition _extract_entities_from_query_only_traced (query : Py.str)
  : Traced (list Py.str) :=
  found <- step_graph_terms query (_extract_entities query) ;;
  ret (Py.fromkeys found).

Definition _extract_entities_from_query_only (query : Py.str)
  : list Py.str :=
  value (_extract_entities_from_query_only_traced query).

End Resolver.

(** *** Collaborators *)

(** A row returned by [memory_service.search_memory]; [score_shown] is the
    text Python prints for [round(score, 2)]. *)
Record Memory : Type := {
  memory_content : Py.str;
  score_shown : Py.str
}.

(** A call to a hosted model: [chat.completions.create] of the OpenAI
    client (OpenAI and SiliconFlow) or [generate_content] of Gemini.  The
    sampling options are the same constants in every call. *)
Inductive LLMRequest : Type :=
| chat_completions (model : Py.str) (messages : list ChatMessage) (stream : bool)
| generate_content (text : Py.str) (stream : bool).

(** What a streaming call delivers: the fragments that arrive, in order,
    and the exception that ends the call when it fails ([chunks] is empty
    when the call fails before its first fragment). *)
Record StreamReply : Type := {
  chunks : list Py.str;
  failure : option Py.exn
}.

(** The state a request runs against.  [llm_call] is the awaited call
    under [asyncio.wait_for]: [Py.Raise Py.TimeoutError] when the timeout
    of [LLM_TIMEOUT] seconds wins the race. *)
Record Services : Type := {
  kg_service : KG.KnowledgeGraphService;
  search_documents : Py.str -> list Py.str -> nat -> list Evidence;
  search_memory : Py.str -> Py.str -> nat -> Py.result (list Memory);
  _llm_provider : Provider;
  siliconflow_model : Py.str;
  llm_call : LLMRequest -> Py.result Py.str;
  llm_stream : LLMRequest -> StreamReply;
  uuid4_hex : Py.str;
  elapsed_ms : Z
}.

(** *** Prompts *)

Definition _build_history_context (history : list ChatMessage) : Py.str :=
  if negb (Py.truthy history) then []
  else
    fold_left
      (fun history_context msg =>
         let role_name :=
           if Py.eqb (role msg) (Py.u "user") then Py.u "用户" else Py.u "助手" in
         history_context ++ history_line role_name (content msg))
      (Py.last_n 6 history) history_header
    ++ Py.u "
".

Definition _build_llm_prompt (query kg_context evidence_context : Py.str)
           (history : list ChatMessage) : Py.str :=
  llm_prompt_text query kg_context (_build_history_context history).

Definition _build_llm_prompt_without_kg (query : Py.str)
           (history : list ChatMessage) : Py.str :=
  llm_prompt_without_kg_text query (_build_history_context history).

(** *** Template answers *)

Definition _generate_fallback_response (query : Py.str) (entities : list Py.str)
  : Py.str :=
  fallback_response_text
    (if Py.truthy entities then Py.join (Py.u ", ") entities
     else Py.u "您所询问内容").

Definition _generate_default_response (query : Py.str) (evidence : list Evidence)
  : Py.str :=
  let evidence_summary :=
    if Py.truthy evidence then
      snd (fold_left
             (fun (st : nat * Py.str) ev =>
                let (i, evidence_summary) := st in
                (S i,
                 evidence_summary
                 ++ evidence_summary_line (str_of_nat i)
                      (match section ev with
                       | Some s => if Py.truthy s then s else Py.u "医学文献"
                       | None => Py.u "医学文献"
                       end)
                      (source ev)))
             (firstn 3 evidence) (1, evidence_summary_header))
    else [] in
  default_response_text evidence_summary.

Definition _generate_mock_response (query : Py.str) (entities : list Py.str)
           (evidence : list Evidence) (kg_paths : list KGPath)
           (kg_context : Py.str) : Py.str :=
  if Py.truthy kg_context then
    kg_response_head kg_context ++ fallback_notice ++ kg_response_tail
  else if Py.any_in headache_terms query then
    _generate_headache_response ++ fallback_notice
  else if Py.any_in fever_terms query then
    _generate_fever_response ++ fallback_notice
  else if Py.any_in drug_terms query then
    _generate_drug_response ++ fallback_notice
  else if Py.any_in diabetes_terms query then
    _generate_diabetes_response ++ fallback_notice
  else if Py.any_in hypertension_terms query then
    _generate_hypertension_response ++ fallback_notice
  else
    _generate_default_response query evidence ++ fallback_notice.

(** *** Pieces the two entry points have word for word in common *)

Definition truthy_id (user_id : option Py.str) : bool :=
  match user_id with
  | Some uid => Py.truthy uid
  | None => false
  end.

(** The lines built from the nodes of [kg_paths[:3]]. *)
Definition path_lines (kg_paths : list KGPath) : Py.str :=
  fold_left
    (fun kg_context path =>
       fold_left
         (fun kg_context node =>
            kg_context
            ++ (Py.u "- " ++ type node ++ Py.u ": " ++ label node)
            ++ (if Py.truthy (dict_get (Py.u "description") (properties node))
                then Py.u " - " ++ dict_get (Py.u "description") (properties node)
                else [])
            ++ Py.u "
")
         (nodes path) kg_context)
    (firstn 3 kg_paths) paths_header.

Definition evidence_lines (evidence : list Evidence) : Py.str :=
  if Py.truthy evidence then
    fold_left
      (fun evidence_context ev =>
         evidence_context ++ evidence_context_line (source ev) (snippet ev))
      (firstn 5 evidence) evidence_context_header
  else [].

Definition history_messages (history : list ChatMessage) : list ChatMessage :=
  if Py.truthy history
  then map (fun msg => {| role := role msg; content := content msg |})
           (Py.last_n 6 history)
  else [].

Definition current_model_name (w : Services) : Py.str :=
  match _llm_provider w with
  | mock => Py.u "模板回复"
  | gemini => Py.u "Gemini"
  | openai => Py.u "GPT-4"
  | siliconflow => siliconflow_model w
  end.

Definition no_kg_notice (w : Services) : Py.str :=
  no_kg_notice_text (current_model_name w).

Definition chat_messages (system_content : Py.str)
           (history : list ChatMessage) (prompt : Py.str) : list ChatMessage :=
  [ {| role := Py.u "system"; content := system_content |} ]
  ++ history_messages history
  ++ [ {| role := Py.u "user"; content := prompt |} ].

(** The prompt of the hosted branches. *)
Definition choose_prompt (request : QueryRequest) (kg_available : bool)
           (kg_context evidence_context : Py.str) : Py.str :=
  if kg_available
  then _build_llm_prompt (query request) kg_context evidence_context (history request)
  else _build_llm_prompt_without_kg (query request) (history request).

Definition siliconflow_request (w : Services) (request : QueryRequest)
           (kg_available : bool) (kg_context evidence_context : Py.str)
           (stream : bool) : LLMRequest :=
  chat_completions (siliconflow_model w)
    (chat_messages
       (if kg_available then siliconflow_system_kg else siliconflow_system_plain)
       (history request)
       (choose_prompt request kg_available kg_context evidence_context))
    stream.

Definition gemini_request (request : QueryRequest)
           (kg_available : bool) (kg_context evidence_context : Py.str)
           (stream : bool) : LLMRequest :=
  generate_content
    ((if kg_available then gemini_prefix_kg else gemini_prefix_plain)
     ++ Py.u "

" ++ choose_prompt request kg_available kg_context evidence_context)
    stream.

Definition openai_request (request : QueryRequest)
           (kg_available : bool) (kg_context evidence_context : Py.str)
           (stream : bool) : LLMRequest :=
  chat_completions (Py.u "gpt-4")
    (chat_messages
       (if kg_available then openai_system_kg else openai_system_plain)
       (history request)
       (choose_prompt request kg_available kg_context evidence_context))
    stream.

(** [round(x, 2)]: the nearest multiple of a hundredth, a tie going to the
    even one. *)
Definition round_half_even (x : Q) : Z :=
  let f := Qfloor x in
  match (x - inject_Z f ?= 1 # 2)%Q with
  | Lt => f
  | Gt => (f + 1)%Z
  | Eq => if Z.even f then f else (f + 1)%Z
  end.

Definition round2 (x : Q) : Q :=
  (inject_Z (round_half_even (x * 100)) / 100)%Q.

Definition sum (l : list Q) : Q := fold_left Qplus l 0%Q.

Definition overall_confidence (evidence : list Evidence) : Q :=
  let confidence_scores :=
    map confidence
        (filter (fun ev => negb (Qeq_bool (confidence ev) 0)) evidence) in
  if Py.truthy confidence_scores
  then (sum confidence_scores
        / inject_Z (Z.of_nat (length confidence_scores)))%Q
  else (7 # 10)%Q.

Definition build_warnings (w : Services) (evidence : list Evidence)
           (kg_available : bool) : list Py.str :=
  (if negb (Py.truthy evidence) then [warning_no_evidence] else [])
  ++ (if negb kg_available then [warning_no_kg] else [])
  ++ (if negb (KG.is_connected (kg_service w)) then [warning_kg_disconnected] else []).

Definition determine_answer_source (w : Services) (kg_available : bool)
  : AnswerSource :=
  match _llm_provider w with
  | mock => if kg_available then KNOWLEDGE_GRAPH else TEMPLATE
  | _ => if kg_available then MIXED else LLM_ONLY
  end.

Definition model_used_name (w : Services) : Py.str :=
  match _llm_provider w with
  | mock => Py.u "mock-llm"
  | gemini => Py.u "gemini-1.5-flash"
  | openai => Py.u "gpt-4"
  | siliconflow => siliconflow_model w
  end.

Definition new_query_id (w : Services) : Py.str :=
  Py.u "q_" ++ firstn 12 (uuid4_hex w).

(** *** [process_query] *)

(** The [try] block of a hosted branch: the awaited call, the notice
    appended when the graph gave nothing; both [except] clauses answer
    with [_generate_mock_response]. *)
Definition complete_or_fallback (reply : Py.result Py.str)
           (kg_available : bool) (notice fallback : Py.str)
  : Py.result Py.str :=
  Py.try_except
    (Py.bind reply
       (fun answer =>
          Py.Return (if negb kg_available then answer ++ notice else answer)))
    (fun e =>
       match e with
       | Py.TimeoutError => Py.Return fallback
       | Py.Exception _ => Py.Return fallback
       end).

(** The memories found for the user; a failure of the search is logged
    and leaves the list empty. *)
Definition recall (w : Services) (request : QueryRequest) : list Memory :=
  if truthy_id (user_id request) then
    match user_id request with
    | Some uid =>
        match search_memory w (query request) uid 5 with
        | Py.Return memory_results => memory_results
        | Py.Raise _ => []
        end
    | None => []
    end
  else [].

Definition memory_text (memory_results : list Memory) : Py.str :=
  if Py.truthy memory_results then
    fold_left
      (fun mem_text m =>
         mem_text ++ mem_text_line (score_shown m) (memory_content m))
      memory_results mem_text_header
    ++ Py.u "
"
  else [].

Record Context : Type := {
  ctx_entities : list Py.str;
  ctx_kg_paths : list KGPath;
  ctx_evidence : list Evidence;
  ctx_kg_context : Py.str;
  ctx_evidence_context : Py.str;
  ctx_kg_available : bool
}.

(** Steps 1 to 4 of [_process_query_internal]. *)
Definition assemble (w : Services) (request : QueryRequest) : Context :=
  let kg := kg_service w in
  let entities := _extract_entities_from_kg kg (query request) (history request) in
  let kg_paths :=
    if include_kg_paths request && Py.truthy entities
    then KG.find_paths_for_query kg entities else [] in
  let evidence :=
    if include_evidence request then
      let current_entities := _extract_entities_from_query_only kg (query request) in
      search_documents w (query request) current_entities (max_answers request + 2)
    else [] in
  let memory_results := recall w request in
  let kg_context := memory_text memory_results in
  let kg_context :=
    if Py.truthy entities && KG.is_connected kg
    then kg_context ++ KG.get_kg_context_for_query kg entities
    else kg_context in
  let kg_context :=
    if negb (Py.truthy kg_context) && Py.truthy kg_paths
    then path_lines kg_paths else kg_context in
  let evidence_context := evidence_lines evidence in
  let evidence_context :=
    if Py.truthy memory_results then
      fold_left
        (fun evidence_context m =>
           evidence_context ++ memory_context_line (memory_content m))
        memory_results (evidence_context ++ memory_context_header)
    else evidence_context in
  {| ctx_entities := entities;
     ctx_kg_paths := kg_paths;
     ctx_evidence := evidence;
     ctx_kg_context := kg_context;
     ctx_evidence_context := evidence_context;
     ctx_kg_available := Py.truthy kg_context || Py.truthy kg_paths |}.

(** Step 5 of [_process_query_internal]. *)
Definition generate (w : Services) (request : QueryRequest) (c : Context)
  : Py.result Py.str :=
  let fallback :=
    _generate_mock_response (query request) (ctx_entities c) (ctx_evidence c)
      (ctx_kg_paths c) (ctx_kg_context c) in
  let available := ctx_kg_available c in
  match _llm_provider w with
  | mock =>
      if available then Py.Return fallback
      else Py.Return (_generate_fallback_response (query request) (ctx_entities c))
  | siliconflow =>
      complete_or_fallback
        (llm_call w (siliconflow_request w request available (ctx_kg_context c)
                       (ctx_evidence_context c) false))
        available (no_kg_notice w) fallback
  | gemini =>
      complete_or_fallback
        (llm_call w (gemini_request request available (ctx_kg_context c)
                       (ctx_evidence_context c) false))
        available (no_kg_notice w) fallback
  | openai =>
      complete_or_fallback
        (llm_call w (openai_request request available (ctx_kg_context c)
                       (ctx_evidence_context c) false))
        available (no_kg_notice w) fallback
  end.

(** The arguments of the [QueryResponse(...)] call that ends both entry
    points, and the call. *)
Definition response_fields (w : Services) (request : QueryRequest)
           (evidence : list Evidence) (kg_paths : list KGPath)
           (kg_available : bool) (answer : Py.str) : QueryResponse :=
  {| query_id := new_query_id w;
     answer := answer;
     answer_source := determine_answer_source w kg_available;
     evidence := firstn (max_answers request) evidence;
     kg_paths := kg_paths;
     confidence_score := round2 (overall_confidence evidence);
     warnings := build_warnings w evidence kg_available;
     disclaimer := disclaimer_text;
     processing_time_ms := elapsed_ms w;
     model_used := model_used_name w |}.

Definition respond (w : Services) (request : QueryRequest)
           (evidence : list Evidence) (kg_paths : list KGPath)
           (kg_available : bool) (answer : Py.str) : Py.result QueryResponse :=
  new_QueryResponse
    (response_fields w request evidence kg_paths kg_available answer).

(** The task that stores the exchange in the memory of the user is
    created and not awaited; it has no part in the value returned. *)
Definition _process_query_internal (w : Services) (request : QueryRequest)
  : Py.result QueryResponse :=
  let c := assemble w request in
  Py.bind (generate w request c)
    (fun answer =>
       respond w request (ctx_evidence c) (ctx_kg_paths c) (ctx_kg_available c)
         answer).

(** The semaphore bounds how many requests run at once, not what one
    returns. *)
Definition process_query := _process_query_internal.

(** *** [process_query_stream] *)

Inductive StreamEvent : Type :=
| Searching (message : Py.str)
| EvidenceFound (count : nat)
| Generating (message : Py.str)
| Content (text : Py.str)
| Complete (response : QueryResponse).

(** A run of the generator: what it yields, in order, and the exception
    that ends it, if one does. *)
Record StreamRun : Type := {
  events : list StreamEvent;
  raised : option Py.exn
}.

(** Steps 1 to 4 of [_process_query_stream_internal]. *)
Definition assemble_stream (w : Services) (request : QueryRequest) : Context :=
  let kg := kg_service w in
  let entities := _extract_entities_from_kg kg (query request) (history request) in
  let kg_paths :=
    if include_kg_paths request && Py.truthy entities
    then KG.find_paths_for_query kg entities else [] in
  let evidence :=
    if include_evidence request then
      let current_entities := _extract_entities_from_query_only kg (query request) in
      search_documents w (query request) current_entities (max_answers request + 2)
    else [] in
  let kg_context :=
    if Py.truthy entities && KG.is_connected kg
    then KG.get_kg_context_for_query kg entities else [] in
  let kg_context :=
    if negb (Py.truthy kg_context) && Py.truthy kg_paths
    then path_lines kg_paths else kg_context in
  {| ctx_entities := entities;
     ctx_kg_paths := kg_paths;
     ctx_evidence := evidence;
     ctx_kg_context := kg_context;
     ctx_evidence_context := evidence_lines evidence;
     ctx_kg_available := Py.truthy kg_context || Py.truthy kg_paths |}.

(** The template answer sent one character at a time. *)
Definition type_out (answer : Py.str) : list StreamEvent * Py.str :=
  fold_left
    (fun (st : list StreamEvent * Py.str) char =>
       (fst st ++ [Content [char]], snd st ++ [char]))
    answer ([], []).

(** The fragments of a hosted model passed on as they arrive; one without
    text is dropped. *)
Definition relay (fragments : list Py.str) : list StreamEvent * Py.str :=
  fold_left
    (fun (st : list StreamEvent * Py.str) fragment =>
       if Py.truthy fragment
       then (fst st ++ [Content fragment], snd st ++ fragment)
       else st)
    fragments ([], []).

(** The [try] block of a hosted branch of the stream and its [except]
    clause. *)
Definition stream_or_fallback (reply : StreamReply) (kg_available : bool)
           (notice fallback : Py.str) : list StreamEvent * Py.str :=
  let (sent, full_answer) := relay (chunks reply) in
  match failure reply with
  | None =>
      if negb kg_available
      then (sent ++ [Content notice], full_answer ++ notice)
      else (sent, full_answer)
  | Some _ => (sent ++ [Content fallback], fallback)
  end.

Definition generate_stream (w : Services) (request : QueryRequest) (c : Context)
  : list StreamEvent * Py.str :=
  let fallback :=
    _generate_mock_response (query request) (ctx_entities c) (ctx_evidence c)
      (ctx_kg_paths c) (ctx_kg_context c) in
  let available := ctx_kg_available c in
  match _llm_provider w with
  | mock =>
      type_out
        (if available then fallback
         else _generate_fallback_response (query request) (ctx_entities c))
  | siliconflow =>
      stream_or_fallback
        (llm_stream w (siliconflow_request w request available (ctx_kg_context c)
                         (ctx_evidence_context c) true))
        available (no_kg_notice w) fallback
  | gemini =>
      stream_or_fallback
        (llm_stream w (gemini_request request available (ctx_kg_context c)
                         (ctx_evidence_context c) true))
        available (no_kg_notice w) fallback
  | openai =>
      stream_or_fallback
        (llm_stream w (openai_request request available (ctx_kg_context c)
                         (ctx_evidence_context c) true))
        available (no_kg_notice w) fallback
  end.

(** Each [yield] is an event; the server-sent framing and the JSON
    encoding of the payload are left out. *)
Definition _process_query_stream_internal (w : Services) (request : QueryRequest)
  : StreamRun :=
  let c := assemble_stream w request in
  let (sent, full_answer) := generate_stream w request c in
  let yielded :=
    [ Searching (Py.u "正在检索知识图谱...");
      EvidenceFound (length (ctx_evidence c));
      Generating (Py.u "正在生成回答...") ] ++ sent in
  match respond w request (ctx_evidence c) (ctx_kg_paths c) (ctx_kg_available c)
          full_answer with
  | Py.Return final_response =>
      {| events := yielded ++ [Complete final_response]; raised := None |}
  | Py.Raise e => {| events := yielded; raised := Some e |}
  end.

Definition process_query_stream := _process_query_stream_internal.

End QA.

(* ===================================================================== *)
(** ** Vocabulary of the statements *)
(* ===================================================================== *)

Module Stated.
Import Models QA.

(** What a hosted branch of [process_query] answers, case by case. *)
Definition hosted_answer (reply : Py.result Py.str) (kg_available : bool)
           (notice fallback : Py.str) : Py.str :=
  match reply with
  | Py.Return text => if negb kg_available then text ++ notice else text
  | Py.Raise _ => fallback
  end.

(** The texts of the [content] events of a stream, joined in the order
    they were sent. *)
Fixpoint content_text (evs : list StreamEvent) : Py.str :=
  match evs with
  | [] => []
  | Content text :: rest => text ++ content_text rest
  | _ :: rest => content_text rest
  end.


(** [x] occurs in [s] as a block of consecutive characters. *)
Definition occurs_in (x s : Py.str) : Prop :=
  exists before after, s = before ++ x ++ after.

(** A synchronous call and a streaming call of the same provider deliver
    the same output: the same text, whole or in fragments, or a failure
    before anything was delivered. *)
Definition same_output (reply : Py.result Py.str) (sreply : StreamReply) : Prop :=
  match reply, failure sreply with
  | Py.Return text, None => text = concat (chunks sreply)
  | Py.Raise _, Some _ => chunks sreply = []
  | _, _ => False
  end.

Definition same_provider_output (w : Services) : Prop :=
  (forall model messages,
      same_output (llm_call w (chat_completions model messages false))
                  (llm_stream w (chat_completions model messages true))) /\
  (forall text,
      same_output (llm_call w (generate_content text false))
                  (llm_stream w (generate_content text true))).

End Stated.

(* ===================================================================== *)
(** ** Concrete states and requests *)
(* ===================================================================== *)

Module Scenario.
Import Models QA.

(** A database that knows the diseases [info] describes and answers the
    searches as [search] says; nothing is linked to anything. *)
Definition db (info : Py.str -> option KG.BasicInfo)
           (search : Py.str -> nat -> list Py.str) : KG.Neo4j :=
  {| KG.db_disease_info := info;
     KG.db_symptoms := fun _ => [];
     KG.db_common_drugs := fun _ => [];
     KG.db_recommend_drugs := fun _ => [];
     KG.db_do_eat := fun _ => [];
     KG.db_not_eat := fun _ => [];
     KG.db_recommend_eat := fun _ => [];
     KG.db_checks := fun _ => [];
     KG.db_departments := fun _ => [];
     KG.db_cure_ways := fun _ => [];
     KG.db_complications := fun _ => [];
     KG.db_diseases_by_symptom := fun _ => [];
     KG.db_search_disease := search;
     KG.db_search_symptom := fun _ _ => [] |}.

Definition record (description cause prevent : Py.str) : KG.BasicInfo :=
  {| KG.bi_description := description; KG.bi_cause := cause;
     KG.bi_prevent := prevent; KG.bi_cure_time := [];
     KG.bi_cure_prob := []; KG.bi_easy_get := [] |}.

(** The graph store is unreachable. *)
Definition graph_down : KG.KnowledgeGraphService :=
  {| KG.is_connected := false;
     KG.driver := db (fun _ => None) (fun _ _ => []) |}.

(** The graph store is reachable; it has a record of [头痛], and its
    search knows one disease whose name contains [上呼吸道感染]. *)
Definition graph_up : KG.KnowledgeGraphService :=
  {| KG.is_connected := true;
     KG.driver :=
       db (fun name =>
             if Py.eqb name (Py.u "头痛")
             then Some (record (Py.u "头部疼痛，常见症状。") (Py.u "病因多样。") [])
             else None)
          (fun keyword _ =>
             if Py.eqb keyword (Py.u "头痛") then [Py.u "头痛"]
             else if Py.eqb keyword (Py.u "上呼吸道感染")
                  then [Py.u "急性上呼吸道感染"]
                  else []) |}.




Definition services (kg : KG.KnowledgeGraphService) (provider : Provider)
           (documents : list Evidence) (memories : list Memory)
           (reply : Py.result Py.str) (sreply : StreamReply) : Services :=
  {| kg_service := kg;
     search_documents := fun _ _ limit => firstn limit documents;
     search_memory := fun _ _ top_k => Py.Return (firstn top_k memories);
     _llm_provider := provider;
     siliconflow_model := Py.u "deepseek-ai/DeepSeek-V3";
     llm_call := fun _ => reply;
     llm_stream := fun _ => sreply;
     uuid4_hex := Py.u "0123456789abcdef0123456789abcdef";
     elapsed_ms := 12%Z |}.

Definition ask (question : Py.str) (user : option Py.str) : QueryRequest :=
  {| query := question; history := []; user_id := user; context := None;
     max_answers := 3; include_kg_paths := true; include_evidence := true;
     language := Py.u "zh" |}.

Definition nothing_streamed : StreamReply := {| chunks := []; failure := None |}.

Definition a_memory : Memory :=
  {| memory_content := Py.u "Q: 我经常头痛
A: 建议就医";
     score_shown := Py.u "0.35" |}.


(** The hosted model times out while the graph store is down. *)
Definition timed_out : Services :=
  services graph_down openai [] [] (Py.Raise Py.TimeoutError) nothing_streamed.

(** Template mode, graph store down, one memory stored for the user. *)
Definition remembered : Services :=
  services graph_down mock [] [a_memory] (Py.Return []) nothing_streamed.

(** The stream of the hosted model breaks after its first fragment. *)
Definition broken_stream : Services :=
  services graph_down openai [] [] (Py.Raise (Py.Exception (Py.u "reset")))
    {| chunks := [Py.u "头痛常见于"];
       failure := Some (Py.Exception (Py.u "reset")) |}.



Definition one_turn : list ChatMessage :=
  [ {| role := Py.u "user"; content := Py.u "hi" |} ].

End Scenario.

(* ===================================================================== *)
(** ** Shapes of results *)
(* ===================================================================== *)

Module Shape.
Import Models.

(** A path is a small closed graph: at most nine nodes, one edge less
    than nodes, every edge between two nodes of the path. *)
Definition closed_path (path : KGPath) : Prop :=
  length (nodes path) <= 9 /\
  length (edges path) + 1 = length (nodes path) /\
  forall edge, In edge (edges path) ->
               In (edge_source edge) (map node_id (nodes path)) /\
               In (edge_target edge) (map node_id (nodes path)).

End Shape.


(* ===================================================================== *)
(** ** Sorting and the literature search *)
(* ===================================================================== *)

Module Sorting.

(** [l.sort(key=..., reverse=True)]: the sort is stable, also when
    reversed, so elements with equal keys keep the order they had.
    [leb y x] says that the key of [y] is at most the key of [x]. *)
Section Sort.
Context {A : Type}.
Variable leb : A -> A -> bool.

Fixpoint insert_desc (x : A) (sorted : list A) : list A :=
  match sorted with
  | [] => [x]
  | y :: rest =>
      if leb y x then x :: y :: rest else y :: insert_desc x rest
  end.

Fixpoint sort_desc (l : list A) : list A :=
  match l with
  | [] => []
  | x :: rest => insert_desc x (sort_desc rest)
  end.

End Sort.

End Sorting.

Module Vector.
Import Models.

(** An entry of [_mock_documents].  [title], [content] and [source] are
    read with [doc[...]], the other keys with [doc.get(...)]; a missing
    [keywords] reads as the empty list.  The key [drugbank_id] is never
    read. *)
Record Doc : Type := {
  doc_id : Py.str;
  doc_title : Py.str;
  doc_content : Py.str;
  doc_source : Py.str;
  doc_source_type : option Py.str;
  doc_pmid : option Py.str;
  doc_doi : option Py.str;
  doc_url : option Py.str;
  doc_year : option Py.str;
  doc_keywords : list Py.str;
  doc_confidence : option Q
}.

Record VectorService : Type := {
  _is_connected : bool;
  _mock_mode : bool;
  _mock_documents : list Doc
}.

Definition is_connected (self : VectorService) : bool :=
  _is_connected self || _mock_mode self.

Definition _init_mock_documents : list Doc :=
  [
    {| doc_id := Py.u "doc_001";
       doc_title := Py.u "偏头痛的诊断与治疗进展";
       doc_content :=
         Py.u "偏头痛是一种常见的原发性头痛，全球患病率约为12%。典型表现为反复发作的中重度搏动性头痛，常伴有恶心、呕吐、畏光和畏声。发作持续4-72小时。诊断主要依据临床表现，需排除继发性头痛。";
       doc_source := Py.u "中华神经科杂志";
       doc_source_type := Some (Py.u "pubmed");
       doc_pmid := Some (Py.u "34567890");
       doc_doi := None;
       doc_url := None;
       doc_year := Some (Py.u "2023");
       doc_keywords := [Py.u "偏头痛"; Py.u "头痛"; Py.u "诊断"; Py.u "治疗"];
       doc_confidence := Some (95 # 100) |};
    {| doc_id := Py.u "doc_002";
       doc_title := Py.u "紧张性头痛的流行病学与管理";
       doc_content :=
         Py.u "紧张性头痛是最常见的头痛类型，终生患病率可达78%。表现为双侧压迫性或紧箍样头痛，程度轻至中度，不因日常活动加重。管理包括生活方式调整、放松训练和必要时的药物治疗。";
       doc_source := Py.u "Headache: The Journal of Head and Face Pain";
       doc_source_type := Some (Py.u "pubmed");
       doc_pmid := Some (Py.u "34567891");
       doc_doi := None;
       doc_url := None;
       doc_year := Some (Py.u "2023");
       doc_keywords := [Py.u "紧张性头痛"; Py.u "头痛"; Py.u "流行病学"];
       doc_confidence := Some (92 # 100) |};
    {| doc_id := Py.u "doc_003";
       doc_title := Py.u "头痛的危险信号与紧急就医指征";
       doc_content :=
         Py.u "以下情况需立即就医：1)雷击样头痛（数秒内达到高峰的剧烈头痛）；2)伴发热和颈部僵硬；3)伴意识改变或神经功能缺损；4)头痛进行性加重；5)50岁以后新发头痛；6)伴视力改变或眼痛。这些可能提示蛛网膜下腔出血、脑膜炎、颅内占位等严重疾病。";
       doc_source := Py.u "NICE Clinical Guidelines";
       doc_source_type := Some (Py.u "guideline");
       doc_pmid := None;
       doc_doi := None;
       doc_url := Some (Py.u "https://www.nice.org.uk/guidance/cg150");
       doc_year := Some (Py.u "2023");
       doc_keywords := [Py.u "头痛"; Py.u "危险信号"; Py.u "急症"; Py.u "就医"];
       doc_confidence := Some (98 # 100) |};
    {| doc_id := Py.u "doc_004";
       doc_title := Py.u "非甾体抗炎药治疗头痛的循证评价";
       doc_content :=
         Py.u "布洛芬(400-600mg)和萘普生(500-550mg)对偏头痛急性发作有效。对乙酰氨基酚(1000mg)对轻至中度头痛有效。曲普坦类药物是中重度偏头痛的一线治疗。应注意药物过度使用性头痛的风险，每月使用止痛药不宜超过10天。";
       doc_source := Py.u "Cochrane Database of Systematic Reviews";
       doc_source_type := Some (Py.u "pubmed");
       doc_pmid := Some (Py.u "34567892");
       doc_doi := Some (Py.u "10.1002/14651858.CD009108");
       doc_url := None;
       doc_year := Some (Py.u "2022");
       doc_keywords := [Py.u "头痛"; Py.u "治疗"; Py.u "NSAIDs"; Py.u "布洛芬"];
       doc_confidence := Some (94 # 100) |};
    {| doc_id := Py.u "doc_005";
       doc_title := Py.u "成人发热的评估与处理";
       doc_content :=
         Py.u "发热定义为核心体温≥38°C。常见病因包括感染(最常见)、自身免疫疾病、恶性肿瘤等。评估应包括详细病史、体格检查和必要的实验室检查。对症治疗包括物理降温和退热药物。";
       doc_source := Py.u "中华内科杂志";
       doc_source_type := Some (Py.u "pubmed");
       doc_pmid := Some (Py.u "34567893");
       doc_doi := None;
       doc_url := None;
       doc_year := Some (Py.u "2023");
       doc_keywords := [Py.u "发热"; Py.u "感染"; Py.u "评估"];
       doc_confidence := Some (91 # 100) |};
    {| doc_id := Py.u "doc_006";
       doc_title := Py.u "流感诊疗方案";
       doc_content :=
         Py.u "流感是由流感病毒引起的急性呼吸道传染病。主要症状包括发热(常高热)、头痛、肌肉酸痛、乏力、咳嗽等。抗病毒治疗（奥司他韦、扎那米韦）应在发病48小时内开始，以获得最佳疗效。高危人群应优先接种流感疫苗。";
       doc_source := Py.u "国家卫生健康委员会";
       doc_source_type := Some (Py.u "guideline");
       doc_pmid := None;
       doc_doi := None;
       doc_url := Some (Py.u "http://www.nhc.gov.cn/");
       doc_year := Some (Py.u "2023");
       doc_keywords := [Py.u "流感"; Py.u "抗病毒"; Py.u "疫苗"];
       doc_confidence := Some (97 # 100) |};
    {| doc_id := Py.u "doc_007";
       doc_title := Py.u "2型糖尿病综合管理指南";
       doc_content :=
         Py.u "2型糖尿病管理目标：HbA1c<7%（个体化调整）。一线用药为二甲双胍。生活方式干预是基础，包括饮食控制、规律运动、戒烟限酒。定期监测并发症：眼底、肾功能、足部检查。";
       doc_source := Py.u "中华糖尿病杂志";
       doc_source_type := Some (Py.u "guideline");
       doc_pmid := None;
       doc_doi := None;
       doc_url := None;
       doc_year := Some (Py.u "2024");
       doc_keywords := [Py.u "糖尿病"; Py.u "二甲双胍"; Py.u "管理"];
       doc_confidence := Some (96 # 100) |};
    {| doc_id := Py.u "doc_008";
       doc_title := Py.u "高血压诊断与治疗指南要点";
       doc_content :=
         Py.u "高血压诊断标准：非同日3次血压≥140/90mmHg。治疗目标：<140/90mmHg，高危患者<130/80mmHg。一线药物包括ACEI/ARB、CCB、利尿剂、β受体阻滞剂。生活方式改变：限盐(<6g/d)、减重、戒烟、限酒、运动。";
       doc_source := Py.u "中国高血压防治指南";
       doc_source_type := Some (Py.u "guideline");
       doc_pmid := None;
       doc_doi := None;
       doc_url := None;
       doc_year := Some (Py.u "2023");
       doc_keywords := [Py.u "高血压"; Py.u "诊断"; Py.u "治疗"];
       doc_confidence := Some (96 # 100) |};
    {| doc_id := Py.u "doc_009";
       doc_title := Py.u "细菌性脑膜炎的早期识别";
       doc_content :=
         Py.u "细菌性脑膜炎三联征：发热、头痛、颈强直。其他表现包括意识障碍、畏光、皮疹（脑膜炎球菌）。Kernig征和Brudzinski征阳性有诊断意义。这是医学急症，需立即就医进行腰穿和经验性抗生素治疗。";
       doc_source := Py.u "Lancet Neurology";
       doc_source_type := Some (Py.u "pubmed");
       doc_pmid := Some (Py.u "34567894");
       doc_doi := None;
       doc_url := None;
       doc_year := Some (Py.u "2023");
       doc_keywords := [Py.u "脑膜炎"; Py.u "急症"; Py.u "头痛"; Py.u "发热"];
       doc_confidence := Some (97 # 100) |};
    {| doc_id := Py.u "doc_010";
       doc_title := Py.u "布洛芬药物信息";
       doc_content :=
         Py.u "布洛芬（Ibuprofen）是非甾体抗炎药(NSAID)。适应症：解热镇痛、抗炎。用法：成人200-400mg/次，每4-6小时一次，每日最大1200mg。禁忌：活动性消化道溃疡、严重心衰、对NSAIDs过敏。注意：胃肠道不良反应、肾功能影响。";
       doc_source := Py.u "DrugBank";
       doc_source_type := Some (Py.u "drugbank");
       doc_pmid := None;
       doc_doi := None;
       doc_url := None;
       doc_year := Some (Py.u "2024");
       doc_keywords := [Py.u "布洛芬"; Py.u "NSAIDs"; Py.u "止痛"];
       doc_confidence := Some (99 # 100) |} ].

(** [VectorService()]. *)
Definition new_VectorService : VectorService :=
  {| _is_connected := false;
     _mock_mode := true;
     _mock_documents := _init_mock_documents |}.

(** The constructor call [Evidence(...)]: pydantic checks [confidence]
    against [ge=0, le=1] and raises when it fails. *)
Definition new_Evidence (source : Py.str) (source_type : SourceType)
           (snippet : Py.str) (pmid doi url : option Py.str) (confidence : Q)
           (publication_date section : option Py.str) : Py.result Evidence :=
  match Qle_bool 0 confidence && Qle_bool confidence 1 as checked
        return (Qle_bool 0 confidence && Qle_bool confidence 1 = checked -> _)
  with
  | true => fun passed =>
      Py.Return
        {| source := source; source_type := source_type; snippet := snippet;
           pmid := pmid; doi := doi; url := url; confidence := confidence;
           publication_date := publication_date; section := section;
           confidence_checked := passed |}
  | false => fun _ => Py.Raise (Py.Exception (Py.u "ValidationError"))
  end eq_refl.

Section Search.
(** [str.lower]. *)
Variable lower : Py.str -> Py.str.

Definition all_keywords (query : Py.str) (keywords : list Py.str)
  : list Py.str :=
  [lower query] ++ (if Py.truthy keywords then map lower keywords else []).

Definition doc_text (doc : Doc) : Py.str :=
  lower (doc_title doc ++ Py.u " " ++ doc_content doc).

(** The inner loop: two points when the keyword occurs in the text,
    three when it is one of the keywords of the document. *)
Definition score (doc : Doc) (all_keywords : list Py.str) : nat :=
  fold_left
    (fun score kw =>
       let score :=
         if Py.contains kw (doc_text doc) then score + 2 else score in
       if Py.mem kw (map lower (doc_keywords doc)) then score + 3 else score)
    all_keywords 0.

Fixpoint scored_docs (docs : list Doc) (all_keywords : list Py.str)
  : list (Doc * nat) :=
  match docs with
  | [] => []
  | doc :: rest =>
      let score := score doc all_keywords in
      if 0 <? score
      then (doc, score) :: scored_docs rest all_keywords
      else scored_docs rest all_keywords
  end.

Definition by_score (x y : Doc * nat) : bool := snd x <=? snd y.

Definition source_type_of (doc : Doc) : SourceType :=
  match doc_source_type doc with
  | Some name =>
      if Py.eqb name (Py.u "pubmed") then PUBMED
      else if Py.eqb name (Py.u "guideline") then GUIDELINE
      else if Py.eqb name (Py.u "drugbank") then DRUGBANK
      else OTHER
  | None => OTHER
  end.

Definition snippet_of (doc : Doc) : Py.str :=
  if 300 <? length (doc_content doc)
  then firstn 300 (doc_content doc) ++ Py.u "..."
  else doc_content doc.

Definition confidence_of (doc : Doc) : Q :=
  match doc_confidence doc with
  | Some confidence => confidence
  | None => 8 # 10
  end.

Definition evidence_of (doc : Doc) : Py.result Evidence :=
  new_Evidence (doc_source doc) (source_type_of doc) (snippet_of doc)
               (doc_pmid doc) (doc_doi doc) (doc_url doc)
               (confidence_of doc) (doc_year doc) (Some (doc_title doc)).

(** The last loop; the first constructor that raises ends the call. *)
Fixpoint collect (top : list (Doc * nat)) (results : list Evidence)
  : Py.result (list Evidence) :=
  match top with
  | [] => Py.Return results
  | (doc, _) :: rest =>
      Py.bind (evidence_of doc)
              (fun evidence => collect rest (results ++ [evidence]))
  end.

(** [limit] is a count: the callers pass [max_answers + 2] or leave the
    default of 5. *)
Definition search_documents (self : VectorService) (query : Py.str)
           (keywords : list Py.str) (limit : nat)
  : Py.result (list Evidence) :=
  if _mock_mode self then
    let scored := scored_docs (_mock_documents self)
                              (all_keywords query keywords) in
    let scored := Sorting.sort_desc by_score scored in
    collect (firstn limit scored) []
  else Py.Return [].

End Search.

(** [get_document]. *)
Definition get_document (self : VectorService) (id : Py.str) : option Doc :=
  if _mock_mode self
  then find (fun doc => Py.eqb (doc_id doc) id) (_mock_documents self)
  else None.

End Vector.

Module Found.
Import Models Vector.

(** What an evidence item says of the document it was made from. *)
Definition made_from (doc : Doc) (evidence : Evidence) : Prop :=
  source evidence = doc_source doc /\
  source_type evidence = source_type_of doc /\
  snippet evidence = snippet_of doc /\
  pmid evidence = doc_pmid doc /\
  doi evidence = doc_doi doc /\
  url evidence = doc_url doc /\
  confidence evidence = confidence_of doc /\
  publication_date evidence = doc_year doc /\
  section evidence = Some (doc_title doc).

(** [str.lower] on text whose only cased characters are the letters A to
    Z. *)
Definition ascii_lower (s : Py.str) : Py.str :=
  map (fun c => if ((65 <=? c) && (c <=? 90))%N then (c + 32)%N else c) s.

End Found.

(* ===================================================================== *)
(** ** The graph shown to the user *)
(* ===================================================================== *)

Module Graph.

(** A row of the relation query of [get_graph_data]: a disease, one of
    its neighbours and the relation between them.  The query returns
    every key, so the defaults of [record.get] are never used; names are
    strings. *)
Record RelRecord : Type := {
  d_name : Py.str;
  d_labels : list Py.str;
  n_name : Py.str;
  n_labels : list Py.str;
  rel_type : Py.str
}.

(** The two queries of [get_graph_data], each of which may raise. *)
Record Session : Type := {
  run_disease_query : nat -> Py.result (list (Py.str * list Py.str));
  run_rel_query : list Py.str -> Py.result (list RelRecord)
}.

Record Node : Type := {
  id : Py.str;
  label : Py.str;
  type : Py.str;
  color : Py.str
}.

Record Edge : Type := {
  source : Py.str;
  target : Py.str;
  edge_type : Py.str
}.

Record GraphData : Type := {
  nodes : list Node;
  edges : list Edge
}.

Definition color_map : list (Py.str * Py.str) :=
  [ (Py.u "Disease", Py.u "#ef4444");
    (Py.u "Symptom", Py.u "#f97316");
    (Py.u "Drug", Py.u "#22c55e");
    (Py.u "Food", Py.u "#eab308");
    (Py.u "Check", Py.u "#3b82f6");
    (Py.u "Department", Py.u "#8b5cf6");
    (Py.u "Cure", Py.u "#14b8a6");
    (Py.u "Producer", Py.u "#6366f1") ].

(** [d.get(key, default)]. *)
Fixpoint get (d : list (Py.str * Py.str)) (key default : Py.str) : Py.str :=
  match d with
  | [] => default
  | (k, v) :: d' => if Py.eqb k key then v else get d' key default
  end.

(** [labels[0] if labels else 'Unknown']. *)
Definition first_label (labels : list Py.str) : Py.str :=
  match labels with
  | first :: _ => first
  | [] => Py.u "Unknown"
  end.

(** The lists and the set the loop fills; the set is only asked whether
    it holds an identifier, and only grows. *)
Record Filling : Type := {
  f_nodes : list Node;
  f_edges : list Edge;
  f_node_ids : list Py.str
}.

Definition add_node (id label type : Py.str) (f : Filling) : Filling :=
  if negb (Py.mem id (f_node_ids f)) then
    {| f_nodes := f_nodes f ++ [ {| id := id; label := label; type := type;
                                   color := get color_map type (Py.u "#6b7280") |} ];
       f_edges := f_edges f;
       f_node_ids := id :: f_node_ids f |}
  else f.

Section Data.
(** [str.lower]. *)
Variable lower : Py.str -> Py.str.

(** The body of the loop over the rows. *)
Definition add_record (f : Filling) (record : RelRecord) : Filling :=
  let d_type := first_label (d_labels record) in
  let n_type := first_label (n_labels record) in
  let d_id := Py.u "disease_" ++ d_name record in
  let f := add_node d_id (d_name record) d_type f in
  let n_id := lower n_type ++ Py.u "_" ++ n_name record in
  let f := add_node n_id (n_name record) n_type f in
  {| f_nodes := f_nodes f;
     f_edges := f_edges f ++ [ {| source := d_id; target := n_id;
                                 edge_type := rel_type record |} ];
     f_node_ids := f_node_ids f |}.

Definition nothing : Filling :=
  {| f_nodes := []; f_edges := []; f_node_ids := [] |}.

(** The [try] block: a query that raises leaves the lists as they
    were, empty. *)
Definition fill (session : Session) (limit : nat) : Filling :=
  match run_disease_query session limit with
  | Py.Raise _ => nothing
  | Py.Return disease_records =>
      let disease_names := map fst disease_records in
      if Py.truthy disease_names then
        match run_rel_query session disease_names with
        | Py.Raise _ => nothing
        | Py.Return rel_records => fold_left add_record rel_records nothing
        end
      else nothing
  end.

(** [limit] is a count: the endpoint accepts 50 to 500. *)
Definition get_graph_data (kg : KG.KnowledgeGraphService) (session : Session)
           (limit : nat) : GraphData :=
  if negb (KG.is_connected kg) then {| nodes := []; edges := [] |}
  else
    let f := fill session limit in
    if limit <? length (f_nodes f) then
      let allowed_nodes := firstn limit (f_nodes f) in
      let allowed_ids := map id allowed_nodes in
      {| nodes := allowed_nodes;
         edges := filter (fun e => Py.mem (source e) allowed_ids
                                   && Py.mem (target e) allowed_ids)
                         (f_edges f) |}
    else {| nodes := f_nodes f; edges := f_edges f |}.

End Data.

(** What the loop keeps true: the identifiers of the nodes are distinct,
    the set holds exactly those identifiers, and every edge joins two of
    the nodes. *)
Definition well_filled (f : Filling) : Prop :=
  NoDup (map id (f_nodes f)) /\
  (forall i, In i (f_node_ids f) <-> In i (map id (f_nodes f))) /\
  (forall e, In e (f_edges f) ->
             In (source e) (map id (f_nodes f)) /\
             In (target e) (map id (f_nodes f))).

End Graph.

Module Sample.
Import Graph.

Definition relation (disease neighbour kind relation : Py.str) : RelRecord :=
  {| d_name := disease; d_labels := [Py.u "Disease"];
     n_name := neighbour; n_labels := [kind]; rel_type := relation |}.

(** A store with one disease, two of its symptoms and one of its drugs. *)
Definition one_disease : Session :=
  {| run_disease_query := fun _ => Py.Return [(Py.u "感冒", [Py.u "Disease"])];
     run_rel_query := fun _ =>
       Py.Return
         [ relation (Py.u "感冒") (Py.u "咳嗽") (Py.u "Symptom") (Py.u "has_symptom");
           relation (Py.u "感冒") (Py.u "发热") (Py.u "Symptom") (Py.u "has_symptom");
           relation (Py.u "感冒") (Py.u "布洛芬") (Py.u "Drug") (Py.u "common_drug") ] |}.

End Sample.
(* ===================================================================== *)
(** ** Literals and scans, on examples *)
(* ===================================================================== *)

Example u_ascii : Py.u "ab" = [97%N; 98%N]. Proof. reflexivity. Qed.
Example u_cjk : Py.u "头痛" = [22836%N; 30171%N]. Proof. reflexivity. Qed.
Example u_emoji : Py.u "📚" = [128218%N]. Proof. reflexivity. Qed.
Example findall_ex :
  Py.findall_cjk 2 6 (Py.u "我头痛a上呼吸道感染感冒了b痛") =
  [Py.u "我头痛"; Py.u "上呼吸道感染"; Py.u "感冒了"].
Proof. reflexivity. Qed.

(* ===================================================================== *)
(** ** Strings and lists *)
(* ===================================================================== *)

Section PyFacts.

Lemma eqb_eq (a b : Py.str) : Py.eqb a b = true <-> a = b.
Proof.
  revert b; induction a as [|x a IH]; intros [|y b]; simpl;
    try (split; [discriminate | congruence]); try tauto.
  rewrite andb_true_iff, N.eqb_eq, IH.
  split; [intros [-> ->]; reflexivity | intros H; inversion H; auto].
Qed.

Lemma mem_In (x : Py.str) (l : list Py.str) : Py.mem x l = true <-> In x l.
Proof.
  unfold Py.mem. rewrite existsb_exists. split.
  - intros (y & Hy & E). apply eqb_eq in E. subst. exact Hy.
  - intros H. exists x. split; [exact H | apply eqb_eq; reflexivity].
Qed.

Lemma mem_app (x : Py.str) (l1 l2 : list Py.str) :
  Py.mem x (l1 ++ l2) = Py.mem x l1 || Py.mem x l2.
Proof. unfold Py.mem. apply existsb_app. Qed.

Lemma dedupe_from_In (x : Py.str) (l seen : list Py.str) :
  In x (Py.dedupe_from seen l) <-> In x l /\ ~ In x seen.
Proof.
  revert seen; induction l as [|y l IH]; intros seen; simpl.
  - tauto.
  - destruct (Py.mem y seen) eqn:E.
    + apply mem_In in E. rewrite IH. split.
      * intros [H1 H2]; auto.
      * intros [[->|H1] H2]; [contradiction | auto].
    + assert (~ In y seen) as Hy
          by (intros H; apply mem_In in H; congruence).
      simpl. rewrite IH. simpl. split.
      * intros [->|[H1 H2]]; [auto | tauto].
      * intros [[->|H1] H2]; [auto |].
        destruct (list_eq_dec N.eq_dec y x) as [->|Hne]; [auto | right; tauto].
Qed.

Lemma fromkeys_In (x : Py.str) (l : list Py.str) :
  In x (Py.fromkeys l) <-> In x l.
Proof. unfold Py.fromkeys. rewrite dedupe_from_In. simpl. tauto. Qed.

Lemma truthy_false_nil {A} (l : list A) : Py.truthy l = false <-> l = [].
Proof. destruct l; simpl; split; congruence. Qed.

Lemma truthy_true_nonempty {A} (l : list A) : Py.truthy l = true <-> l <> [].
Proof. destruct l; simpl; split; congruence. Qed.



End PyFacts.

(* ===================================================================== *)
(** ** The confidence score *)
(* ===================================================================== *)

Section Confidence.
Import Models QA.
Open Scope Q_scope.

Lemma confidence_range (ev : Evidence) : 0 <= confidence ev <= 1.
Proof.
  pose proof (confidence_checked ev) as H.
  apply andb_true_iff in H. destruct H as [H0 H1].
  split; apply Qle_bool_iff; assumption.
Qed.


(** It keeps a number between two integers between them. *)
Lemma round_half_even_bounds (x : Q) (lo hi : Z) :
  inject_Z lo <= x <= inject_Z hi ->
  (lo <= round_half_even x <= hi)%Z.
Proof.
  intros [Hlo Hhi].
  assert (lo <= Qfloor x)%Z as Flo.
  { rewrite <- (Qfloor_Z lo). apply Qfloor_resp_le. exact Hlo. }
  assert (Qfloor x <= hi)%Z as Fhi.
  { rewrite <- (Qfloor_Z hi). apply Qfloor_resp_le. exact Hhi. }
  unfold round_half_even.
  pose proof (Qfloor_le x) as Hf.
  assert (Qfloor x = hi -> x - inject_Z (Qfloor x) == 0) as Htop.
  { intros E. rewrite E in *. lra. }
  destruct (Qcompare_spec (x - inject_Z (Qfloor x)) (1 # 2)) as [E|L|G].
  - destruct (Z.even (Qfloor x)); [lia|].
    destruct (Z.eq_dec (Qfloor x) hi) as [Eh|Nh]; [|lia].
    specialize (Htop Eh). lra.
  - lia.
  - destruct (Z.eq_dec (Qfloor x) hi) as [Eh|Nh]; [|lia].
    specialize (Htop Eh). lra.
Qed.

Lemma round2_range (x : Q) : 0 <= x <= 1 -> 0 <= round2 x <= 1.
Proof.
  intros [H0 H1]. unfold round2.
  destruct (round_half_even_bounds (x * 100) 0 100) as [Z0 Z1].
  { change (inject_Z 0) with 0. change (inject_Z 100) with 100. lra. }
  rewrite Zle_Qle in Z0, Z1.
  change (inject_Z 0) with 0 in Z0. change (inject_Z 100) with 100 in Z1.
  revert Z0 Z1. generalize (inject_Z (round_half_even (x * 100))).
  intros z A B.
  split.
  - apply Qle_shift_div_l; lra.
  - apply Qle_shift_div_r; lra.
Qed.


(** [sum] with its accumulator. *)
Lemma fold_sum_range (l : list Q) (acc : Q) :
  Forall (fun c => 0 <= c <= 1) l ->
  acc <= fold_left Qplus l acc <= acc + inject_Z (Z.of_nat (length l)).
Proof.
  revert acc; induction l as [|c l IH]; intros acc Hl; simpl length.
  - cbn [fold_left length Z.of_nat]. change (inject_Z 0) with 0. lra.
  - inversion Hl as [|? ? Hc Hl']; subst.
    specialize (IH (acc + c) Hl'). simpl fold_left.
    rewrite Nat2Z.inj_succ. unfold Z.succ. rewrite inject_Z_plus.
    change (inject_Z 1) with 1. lra.
Qed.

Lemma overall_confidence_range (evidence : list Evidence) :
  0 <= overall_confidence evidence <= 1.
Proof.
  unfold overall_confidence.
  set (scores := map confidence
                   (filter (fun ev => negb (Qeq_bool (confidence ev) 0)) evidence)).
  assert (Forall (fun c => 0 <= c <= 1) scores) as Hs.
  { apply Forall_forall. intros c Hc. apply in_map_iff in Hc.
    destruct Hc as (ev & <- & _). apply confidence_range. }
  clearbody scores.
  destruct scores as [|c rest]; simpl Py.truthy; cbv iota.
  - lra.
  - pose proof (fold_sum_range _ 0 Hs) as [A B].
    assert (0 < inject_Z (Z.of_nat (length (c :: rest)))) as Hn.
    { change 0 with (inject_Z 0). rewrite <- Zlt_Qlt. simpl length. lia. }
    unfold sum. split.
    + apply Qle_shift_div_l; [exact Hn | lra].
    + apply Qle_shift_div_r; [exact Hn | lra].
Qed.

Lemma confidence_score_range (evidence : list Evidence) :
  0 <= round2 (overall_confidence evidence) <= 1.
Proof. apply round2_range, overall_confidence_range. Qed.

End Confidence.

(* ===================================================================== *)
(** ** The two entry points *)
(* ===================================================================== *)

Section Pipeline.
Import Models QA Stated.





Lemma Return_inj {A} (a b : A) : Py.Return a = Py.Return b -> a = b.
Proof. congruence. Qed.

(** The constructor accepts what [response_fields] gives it. *)
Lemma respond_returns w request evidence kg_paths kg_available answer :
  respond w request evidence kg_paths kg_available answer =
  Py.Return (response_fields w request evidence kg_paths kg_available answer).
Proof.
  unfold respond, new_QueryResponse.
  destruct (confidence_score_range evidence) as [H0 H1].
  apply Qle_bool_iff in H0, H1.
  cbn [confidence_score response_fields].
  rewrite H0, H1. reflexivity.
Qed.

Lemma complete_or_fallback_returns reply kg_available notice fallback :
  complete_or_fallback reply kg_available notice fallback =
  Py.Return (hosted_answer reply kg_available notice fallback).
Proof. destruct reply as [text|[|msg]]; reflexivity. Qed.

Lemma generate_returns w request c :
  exists answer, generate w request c = Py.Return answer.
Proof.
  unfold generate.
  destruct (_llm_provider w);
    try (rewrite complete_or_fallback_returns; eexists; reflexivity).
  destruct (ctx_kg_available c); eexists; reflexivity.
Qed.

Lemma process_query_returns w request :
  exists answer,
    generate w request (assemble w request) = Py.Return answer /\
    process_query w request =
    Py.Return (response_fields w request
                 (ctx_evidence (assemble w request))
                 (ctx_kg_paths (assemble w request))
                 (ctx_kg_available (assemble w request)) answer).
Proof.
  destruct (generate_returns w request (assemble w request)) as [answer E].
  exists answer. split; [exact E|].
  unfold process_query, _process_query_internal.
  rewrite E. cbn [Py.bind]. apply respond_returns.
Qed.


(** The answer of [process_query], branch by branch. *)
Lemma generate_value w request c :
  generate w request c =
  Py.Return
    (match _llm_provider w with
     | mock =>
         if ctx_kg_available c
         then _generate_mock_response (query request) (ctx_entities c)
                (ctx_evidence c) (ctx_kg_paths c) (ctx_kg_context c)
         else _generate_fallback_response (query request) (ctx_entities c)
     | siliconflow =>
         hosted_answer
           (llm_call w (siliconflow_request w request (ctx_kg_available c)
                          (ctx_kg_context c) (ctx_evidence_context c) false))
           (ctx_kg_available c) (no_kg_notice w)
           (_generate_mock_response (query request) (ctx_entities c)
              (ctx_evidence c) (ctx_kg_paths c) (ctx_kg_context c))
     | gemini =>
         hosted_answer
           (llm_call w (gemini_request request (ctx_kg_available c)
                          (ctx_kg_context c) (ctx_evidence_context c) false))
           (ctx_kg_available c) (no_kg_notice w)
           (_generate_mock_response (query request) (ctx_entities c)
              (ctx_evidence c) (ctx_kg_paths c) (ctx_kg_context c))
     | openai =>
         hosted_answer
           (llm_call w (openai_request request (ctx_kg_available c)
                          (ctx_kg_context c) (ctx_evidence_context c) false))
           (ctx_kg_available c) (no_kg_notice w)
           (_generate_mock_response (query request) (ctx_entities c)
              (ctx_evidence c) (ctx_kg_paths c) (ctx_kg_context c))
     end).
Proof.
  unfold generate.
  destruct (_llm_provider w);
    try (apply complete_or_fallback_returns).
  destruct (ctx_kg_available c); reflexivity.
Qed.


End Pipeline.

Section Claims_sync.
Import Models QA Stated Scenario.




(** With the graph store down and no memory found, no graph context
    exists. *)
Lemma disconnected_context w request :
  KG.is_connected (kg_service w) = false ->
  recall w request = [] ->
  ctx_kg_available (assemble w request) = false.
Proof.
  intros D M. unfold assemble. rewrite M. cbn [ctx_kg_available memory_text Py.truthy].
  unfold KG.find_paths_for_query. rewrite D. cbn [negb].
  rewrite andb_false_r.
  destruct (include_kg_paths request && Py.truthy _); reflexivity.
Qed.

Lemma disconnected_context_stream w request :
  KG.is_connected (kg_service w) = false ->
  ctx_kg_available (assemble_stream w request) = false.
Proof.
  intros D. unfold assemble_stream. cbn [ctx_kg_available].
  unfold KG.find_paths_for_query. rewrite D. cbn [negb].
  rewrite andb_false_r.
  destruct (include_kg_paths request && Py.truthy _); reflexivity.
Qed.

(** Without graph context the source is [template] or [llm_only]. *)
Lemma source_without_graph w :
  determine_answer_source w false = TEMPLATE \/
  determine_answer_source w false = LLM_ONLY.
Proof. unfold determine_answer_source. destruct (_llm_provider w); auto. Qed.

(** What C2 asks holds when no memory is found for the user. *)
Lemma disconnected_source_without_memory w request :
  KG.is_connected (kg_service w) = false ->
  recall w request = [] ->
  exists response,
    process_query w request = Py.Return response /\
    answer_source response <> KNOWLEDGE_GRAPH /\
    answer_source response <> MIXED.
Proof.
  intros D M.
  destruct (process_query_returns w request) as (answer & _ & E).
  eexists. split; [exact E|].
  cbn [answer_source response_fields].
  rewrite (disconnected_context w request D M).
  destruct (source_without_graph w) as [-> | ->]; split; discriminate.
Qed.

(** C2, at the input where the code fails it: the graph store is down,
    the user has one stored memory, the service runs in template mode; the
    text of the memory is appended to [kg_context], which makes
    [kg_available] true, and the response is labelled [knowledge_graph]. *)
Lemma memory_marks_answer_as_graph_based :
  KG.is_connected (kg_service remembered) = false /\
  exists response,
    process_query remembered (ask (Py.u "头痛") (Some (Py.u "u1")))
    = Py.Return response /\
    answer_source response = KNOWLEDGE_GRAPH /\
    In warning_kg_disconnected (warnings response).
Proof.
  split; [reflexivity|].
  destruct (process_query_returns remembered (ask (Py.u "头痛") (Some (Py.u "u1"))))
    as (answer & _ & E).
  eexists. split; [exact E|].
  cbn [answer_source warnings response_fields].
  assert (ctx_kg_available
            (assemble remembered (ask (Py.u "头痛") (Some (Py.u "u1")))) = true)
    as -> by (vm_compute; reflexivity).
  split; [reflexivity|].
  unfold build_warnings.
  apply in_or_app; right. apply in_or_app; right.
  change (KG.is_connected (kg_service remembered)) with false.
  left. reflexivity.
Qed.

(** The first half of C3 holds: when the call of a hosted model times out
    or fails, the answer is the text of [_generate_mock_response]; the
    source stays the one of the configured provider. *)
Lemma failed_call_answer w request :
  _llm_provider w <> mock ->
  (forall req, exists e, llm_call w req = Py.Raise e) ->
  exists response,
    process_query w request = Py.Return response /\
    answer response =
      _generate_mock_response (query request)
        (ctx_entities (assemble w request)) (ctx_evidence (assemble w request))
        (ctx_kg_paths (assemble w request)) (ctx_kg_context (assemble w request)) /\
    (answer_source response = MIXED \/ answer_source response = LLM_ONLY).
Proof.
  intros P R.
  destruct (process_query_returns w request) as (answer & G & E).
  eexists. split; [exact E|].
  cbn [Models.answer answer_source response_fields].
  rewrite generate_value in G. apply Return_inj in G; subst answer.
  unfold determine_answer_source.
  destruct (_llm_provider w); [congruence| | |];
    match goal with
    | |- context [llm_call w ?req] => destruct (R req) as [e ->]
    end;
    (split; [reflexivity|]);
    destruct (ctx_kg_available (assemble w request)); auto.
Qed.

(** C3, at the input where the code fails it: the graph store is down,
    the call of the hosted model times out; the answer is the template
    text on headache, closed by the notice that no model was used, and
    the response is labelled [llm_only] with [gpt-4] as the model used. *)
Lemma timeout_keeps_configured_source :
  llm_call timed_out
    (openai_request (ask (Py.u "头痛") None) false [] [] false)
  = Py.Raise Py.TimeoutError /\
  exists response,
    process_query timed_out (ask (Py.u "头痛") None) = Py.Return response /\
    answer response = _generate_headache_response ++ fallback_notice /\
    answer_source response = LLM_ONLY /\
    model_used response = Py.u "gpt-4".
Proof.
  split; [reflexivity|].
  destruct (process_query_returns timed_out (ask (Py.u "头痛") None))
    as (answer & G & E).
  eexists. split; [exact E|].
  cbn [Models.answer answer_source model_used response_fields].
  assert (generate timed_out (ask (Py.u "头痛") None)
            (assemble timed_out (ask (Py.u "头痛") None))
          = Py.Return (_generate_headache_response ++ fallback_notice)) as G'
      by (vm_compute; reflexivity).
  assert (ctx_kg_available (assemble timed_out (ask (Py.u "头痛") None)) = false)
    as -> by (vm_compute; reflexivity).
  split; [congruence|]. split; reflexivity.
Qed.

End Claims_sync.

(* ===================================================================== *)
(** ** The stream *)
(* ===================================================================== *)

Section Stream.
Import Models QA Stated.

Lemma content_text_app (a b : list StreamEvent) :
  content_text (a ++ b) = content_text a ++ content_text b.
Proof.
  induction a as [|e a IH]; [reflexivity|].
  destruct e; simpl; rewrite ?IH, ?app_assoc; reflexivity.
Qed.

Lemma content_text_content (text : Py.str) (rest : list StreamEvent) :
  content_text (Content text :: rest) = text ++ content_text rest.
Proof. reflexivity. Qed.

Lemma content_text_status (m1 m2 : Py.str) (n : nat) (rest : list StreamEvent) :
  content_text (Searching m1 :: EvidenceFound n :: Generating m2 :: rest)
  = content_text rest.
Proof. reflexivity. Qed.

Lemma content_text_map (texts : list Py.str) :
  content_text (map Content texts) = concat texts.
Proof. induction texts as [|t texts IH]; simpl; congruence. Qed.

(** The loop of the template branch, from any state. *)
Lemma type_out_from (answer : Py.str) (sent : list StreamEvent) (full : Py.str) :
  fold_left
    (fun (st : list StreamEvent * Py.str) char =>
       (fst st ++ [Content [char]], snd st ++ [char]))
    answer (sent, full)
  = (sent ++ map (fun char => Content [char]) answer, full ++ answer).
Proof.
  revert sent full; induction answer as [|c answer IH]; intros sent full; simpl.
  - rewrite !app_nil_r. reflexivity.
  - rewrite IH. rewrite <- !app_assoc. reflexivity.
Qed.

Lemma type_out_value (answer : Py.str) :
  type_out answer = (map Content (map (fun char => [char]) answer), answer).
Proof.
  unfold type_out. rewrite type_out_from. rewrite map_map. reflexivity.
Qed.

(** The loop of a hosted branch, from any state. *)
Lemma relay_from (fragments : list Py.str) (sent : list StreamEvent) (full : Py.str) :
  fold_left
    (fun (st : list StreamEvent * Py.str) fragment =>
       if Py.truthy fragment
       then (fst st ++ [Content fragment], snd st ++ fragment)
       else st)
    fragments (sent, full)
  = (sent ++ map Content (filter (@Py.truthy N) fragments),
     full ++ concat (filter (@Py.truthy N) fragments)).
Proof.
  revert sent full; induction fragments as [|f fragments IH];
    intros sent full; simpl.
  - rewrite !app_nil_r. reflexivity.
  - destruct (Py.truthy f) eqn:E; simpl; rewrite IH.
    + rewrite <- !app_assoc. reflexivity.
    + reflexivity.
Qed.

Lemma relay_value (fragments : list Py.str) :
  relay fragments =
  (map Content (filter (@Py.truthy N) fragments),
   concat (filter (@Py.truthy N) fragments)).
Proof. unfold relay. apply relay_from. Qed.

(** Dropping the fragments without text does not change the text. *)
Lemma concat_filter_truthy (fragments : list Py.str) :
  concat (filter (@Py.truthy N) fragments) = concat fragments.
Proof.
  induction fragments as [|f fragments IH]; [reflexivity|].
  destruct f; simpl; rewrite IH; reflexivity.
Qed.

(** What a hosted branch of the stream sends and keeps. *)
Lemma stream_or_fallback_value reply kg_available notice fallback :
  stream_or_fallback reply kg_available notice fallback =
  let texts := filter (@Py.truthy N) (chunks reply) in
  match failure reply with
  | None =>
      if negb kg_available
      then (map Content (texts ++ [notice]), concat texts ++ notice)
      else (map Content texts, concat texts)
  | Some _ => (map Content (texts ++ [fallback]), fallback)
  end.
Proof.
  unfold stream_or_fallback. rewrite relay_value. cbv zeta.
  destruct (failure reply); [|destruct kg_available]; cbn [negb];
    rewrite ?map_app; reflexivity.
Qed.

Lemma concat_singletons {A} (l : list A) :
  concat (map (fun x => [x]) l) = l.
Proof. induction l as [|x l IH]; simpl; congruence. Qed.

Lemma hosted_content_is_answer reply kg_available notice fallback :
  failure reply = None \/ filter (@Py.truthy N) (chunks reply) = [] ->
  content_text (fst (stream_or_fallback reply kg_available notice fallback))
  = snd (stream_or_fallback reply kg_available notice fallback).
Proof.
  intros H. rewrite stream_or_fallback_value. cbv zeta.
  destruct (failure reply) as [e|].
  - destruct H as [H|H]; [discriminate|]. rewrite H.
    cbn [fst snd app map content_text]. apply app_nil_r.
  - destruct kg_available; cbn [negb fst snd]; rewrite content_text_map.
    + reflexivity.
    + rewrite concat_app. cbn [concat]. rewrite app_nil_r. reflexivity.
Qed.

(** Generation only yields [content] events. *)
Lemma generate_stream_contents w request c :
  exists texts, fst (generate_stream w request c) = map Content texts.
Proof.
  unfold generate_stream.
  destruct (_llm_provider w);
    try (rewrite stream_or_fallback_value; cbv zeta;
         match goal with
         | |- context [failure ?r] => destruct (failure r)
         end;
         [|destruct (ctx_kg_available c)]; cbn [negb fst];
         eexists; reflexivity).
  rewrite type_out_value. eexists; reflexivity.
Qed.

(** A run of the stream, whole. *)
Lemma process_query_stream_value w request :
  let c := assemble_stream w request in
  process_query_stream w request =
  {| events :=
       [ Searching (Py.u "正在检索知识图谱...");
         EvidenceFound (length (ctx_evidence c));
         Generating (Py.u "正在生成回答...") ]
       ++ fst (generate_stream w request c)
       ++ [ Complete (response_fields w request (ctx_evidence c) (ctx_kg_paths c)
                        (ctx_kg_available c) (snd (generate_stream w request c))) ];
     raised := None |}.
Proof.
  intros c. unfold process_query_stream, _process_query_stream_internal.
  fold c. destruct (generate_stream w request c) as [sent full].
  rewrite respond_returns. cbn [fst snd].
  rewrite <- app_assoc. reflexivity.
Qed.

End Stream.

Section Claims_stream.
Import Models QA Stated Scenario.

(** C7.  Every run of the streaming entry point yields one [searching]
    event, then one [evidence_found] event whose count is the number of
    evidence items retrieved, then one [generating] event, then [content]
    events only, and last one [complete] event, which carries the full
    response; the generator ends without an exception. *)
Theorem stream_event_order (w : Services) (request : QueryRequest) :
  exists (m1 m2 : Py.str) (texts : list Py.str) (response : QueryResponse),
    process_query_stream w request =
    {| events :=
         [ Searching m1;
           EvidenceFound (length (ctx_evidence (assemble_stream w request)));
           Generating m2 ]
         ++ map Content texts ++ [Complete response];
       raised := None |} /\
    respond w request
      (ctx_evidence (assemble_stream w request))
      (ctx_kg_paths (assemble_stream w request))
      (ctx_kg_available (assemble_stream w request))
      (snd (generate_stream w request (assemble_stream w request)))
    = Py.Return response.
Proof.
  destruct (generate_stream_contents w request (assemble_stream w request))
    as [texts T].
  exists (Py.u "正在检索知识图谱..."), (Py.u "正在生成回答..."), texts.
  eexists. split.
  - rewrite process_query_stream_value. cbv zeta. rewrite T. reflexivity.
  - apply respond_returns.
Qed.

(** The texts sent are the answer of the response in template mode, when
    the stream of the hosted model ends well, and when it fails before
    any fragment with text. *)
Lemma content_is_answer w request :
  (_llm_provider w = mock \/
   forall req, failure (llm_stream w req) = None \/
               filter (@Py.truthy N) (chunks (llm_stream w req)) = []) ->
  let run := generate_stream w request (assemble_stream w request) in
  content_text (fst run) = snd run.
Proof.
  intros H. cbv zeta. unfold generate_stream.
  destruct (_llm_provider w) eqn:P.
  - rewrite type_out_value. cbn [fst snd]. rewrite content_text_map.
    apply concat_singletons.
  - destruct H as [H|H]; [discriminate|]. apply hosted_content_is_answer, H.
  - destruct H as [H|H]; [discriminate|]. apply hosted_content_is_answer, H.
  - destruct H as [H|H]; [discriminate|]. apply hosted_content_is_answer, H.
Qed.

(** C10, at the input where the code fails it: the stream of the hosted
    model delivers one fragment and then breaks.  The fragment was sent,
    the template answer is sent after it as one more [content] event, and
    [full_answer] is set to the template answer alone: the texts sent are
    the fragment followed by the answer of the response, not the answer. *)
Lemma broken_stream_sends_more_than_answer :
  exists sent response,
    process_query_stream broken_stream (ask (Py.u "头痛") None)
    = {| events := sent ++ [Complete response]; raised := None |} /\
    answer response = _generate_headache_response ++ fallback_notice /\
    content_text sent = Py.u "头痛常见于" ++ answer response /\
    content_text sent <> answer response.
Proof.
  assert (generate_stream broken_stream (ask (Py.u "头痛") None)
            (assemble_stream broken_stream (ask (Py.u "头痛") None))
          = ([ Content (Py.u "头痛常见于");
               Content (_generate_headache_response ++ fallback_notice) ],
             _generate_headache_response ++ fallback_notice)) as G
      by (vm_compute; reflexivity).
  eexists. eexists. split.
  - rewrite process_query_stream_value. cbv zeta. rewrite G. cbn [fst snd].
    rewrite app_assoc. reflexivity.
  - unfold response_fields; cbn [answer].
    split; [reflexivity|].
    rewrite content_text_app, content_text_status, !content_text_content.
    change (content_text []) with (@nil N). rewrite !app_nil_r, app_nil_l.
    split; [reflexivity|].
    intros C. apply (f_equal (@length N)) in C.
    rewrite length_app in C.
    change (length (Py.u "头痛常见于")) with 5 in C. lia.
Qed.

(** When no memory is found for the user, the two entry points assemble
    the same context. *)
Lemma same_context_without_memory w request :
  recall w request = [] ->
  assemble w request = assemble_stream w request.
Proof.
  intros M. unfold assemble, assemble_stream. rewrite M. reflexivity.
Qed.

Lemma hosted_branches_agree reply sreply kg_available notice fallback :
  same_output reply sreply ->
  snd (stream_or_fallback sreply kg_available notice fallback)
  = hosted_answer reply kg_available notice fallback.
Proof.
  unfold same_output. intros H. rewrite stream_or_fallback_value. cbv zeta.
  destruct reply as [text|e], (failure sreply) as [e'|]; try contradiction.
  - subst text. rewrite concat_filter_truthy.
    destruct kg_available; reflexivity.
  - reflexivity.
Qed.

(** What C4 asks holds when no memory is found for the user and the
    provider delivers the same output to both kinds of call. *)
Lemma sync_and_stream_agree_without_memory w request :
  recall w request = [] ->
  same_provider_output w ->
  generate w request (assemble w request)
  = Py.Return (snd (generate_stream w request (assemble_stream w request))).
Proof.
  intros M [Hchat Htext]. rewrite generate_value.
  rewrite (same_context_without_memory w request M).
  unfold generate_stream, siliconflow_request, gemini_request, openai_request.
  destruct (_llm_provider w).
  - rewrite type_out_value. reflexivity.
  - rewrite (hosted_branches_agree _ _ _ _ _ (Hchat _ _)). reflexivity.
  - rewrite (hosted_branches_agree _ _ _ _ _ (Htext _)). reflexivity.
  - rewrite (hosted_branches_agree _ _ _ _ _ (Hchat _ _)). reflexivity.
Qed.

(** C4, at the input where the code fails it: template mode, the graph
    store down, one memory stored for the user.  [process_query] puts the
    memory into [kg_context] and answers with the graph template around
    it; [process_query_stream] never searches the memory and answers with
    the text for a question the knowledge base has nothing about. *)
Lemma memory_splits_sync_and_stream :
  exists sync streamed sent,
    process_query remembered (ask (Py.u "头痛") (Some (Py.u "u1")))
    = Py.Return sync /\
    process_query_stream remembered (ask (Py.u "头痛") (Some (Py.u "u1")))
    = {| events := sent ++ [Complete streamed]; raised := None |} /\
    answer sync =
      kg_response_head (memory_text [a_memory]) ++ fallback_notice
      ++ kg_response_tail /\
    answer streamed =
      _generate_fallback_response (Py.u "头痛") [Py.u "头痛"] /\
    answer sync <> answer streamed.
Proof.
  destruct (process_query_returns remembered (ask (Py.u "头痛") (Some (Py.u "u1"))))
    as (a & G & E).
  assert (generate remembered (ask (Py.u "头痛") (Some (Py.u "u1")))
            (assemble remembered (ask (Py.u "头痛") (Some (Py.u "u1"))))
          = Py.Return (kg_response_head (memory_text [a_memory])
                         ++ fallback_notice ++ kg_response_tail)) as G'
      by (vm_compute; reflexivity).
  assert (snd (generate_stream remembered (ask (Py.u "头痛") (Some (Py.u "u1")))
                 (assemble_stream remembered
                    (ask (Py.u "头痛") (Some (Py.u "u1")))))
          = _generate_fallback_response (Py.u "头痛") [Py.u "头痛"]) as S'
      by (vm_compute; reflexivity).
  rewrite G' in G. apply Return_inj in G. subst a.
  eexists. eexists. eexists. split; [exact E|]. split.
  - rewrite process_query_stream_value. cbv zeta.
    rewrite app_assoc. reflexivity.
  - unfold response_fields; cbn [answer]. rewrite S'.
    split; [reflexivity|]. split; [reflexivity|].
    intros C. apply eqb_eq in C. vm_compute in C. discriminate.
Qed.

End Claims_stream.

(* ===================================================================== *)
(** ** Entity resolution *)
(* ===================================================================== *)

Section Resolution.
Import Models QA.
Variable kg : KG.KnowledgeGraphService.

Lemma value_bind {A B} (m : Traced A) (f : A -> Traced B) :
  value (bind m f) = value (f (value m)).
Proof. destruct m as [a t]. unfold bind, value. simpl. destruct (f a); reflexivity. Qed.


Lemma incl_app_l {A} (l extra : list A) : incl l (l ++ extra).
Proof. apply incl_appl, incl_refl. Qed.

Ltac step_search :=
  rewrite value_bind;
  match goal with
  | |- context [value (search_disease ?k ?t ?n)] =>
      change (value (search_disease k t n)) with (KG.search_disease k t n);
      destruct (KG.search_disease k t n)
  | |- context [value (search_symptom ?k ?t ?n)] =>
      change (value (search_symptom k t n)) with (KG.search_symptom k t n);
      destruct (KG.search_symptom k t n)
  end.

(** No step ever removes an entity. *)
Lemma probe_terms_extends (terms found : list Py.str) :
  incl found (value (probe_terms kg terms found)).
Proof.
  revert found; induction terms as [|term rest IH]; intros found; cbn [probe_terms].
  - apply incl_refl.
  - destruct (Py.mem term found); [apply IH|].
    step_search.
    + step_search; [apply IH|].
      eapply incl_tran; [apply incl_app_l | apply IH].
    + eapply incl_tran; [apply incl_app_l | apply IH].
Qed.

Lemma first_hit_extends (terms found : list Py.str) :
  incl found (value (first_hit kg terms found)).
Proof.
  revert found; induction terms as [|term rest IH]; intros found; cbn [first_hit].
  - apply incl_refl.
  - destruct (Py.mem term found); [apply IH|].
    step_search.
    + step_search; [apply IH | apply incl_app_l].
    + apply incl_app_l.
Qed.

Lemma scan_history_extends (msgs : list ChatMessage) (found : list Py.str) :
  incl found (value (scan_history kg msgs found)).
Proof.
  revert found; induction msgs as [|msg rest IH]; intros found; cbn [scan_history].
  - apply incl_refl.
  - destruct (negb _); [apply IH|].
    rewrite value_bind.
    pose proof (first_hit_extends (Py.findall_cjk 2 12 (content msg)) found) as H.
    destruct (Py.truthy _); [exact H|].
    eapply incl_tran; [exact H | apply IH].
Qed.

Lemma step_history_extends (history : list ChatMessage) (found : list Py.str) :
  incl found (value (step_history kg history found)).
Proof.
  unfold step_history. destruct (_ && _);
    [apply scan_history_extends | apply incl_refl].
Qed.

Lemma ngram_row_extends text n starts (found : list Py.str) :
  incl found (value (ngram_row kg text n starts found)).
Proof.
  revert found; induction starts as [|i rest IH]; intros found; cbn [ngram_row].
  - apply incl_refl.
  - destruct (Py.mem _ found); [apply IH|].
    step_search; [apply IH | apply incl_app_l].
Qed.

Lemma ngram_scan_extends text lengths (found : list Py.str) :
  incl found (value (ngram_scan kg text lengths found)).
Proof.
  revert found; induction lengths as [|n rest IH]; intros found; cbn [ngram_scan].
  - apply incl_refl.
  - rewrite value_bind.
    pose proof (ngram_row_extends text n
                  (seq 0 (length text + 1 - n)) found) as H.
    destruct (Py.truthy _); [exact H|].
    eapply incl_tran; [exact H | apply IH].
Qed.

Lemma step_aggressive_extends (query : Py.str) (found : list Py.str) :
  incl found (value (step_aggressive kg query found)).
Proof.
  unfold step_aggressive.
  destruct (negb (Py.truthy found)); [|apply incl_refl].
  rewrite value_bind.
  match goal with
  | |- incl found (value (if negb (Py.truthy ?first) then _ else _)) =>
      assert (incl found first) as H;
      [| destruct (negb (Py.truthy first));
         [eapply incl_tran; [exact H | apply ngram_scan_extends] | exact H]]
  end.
  destruct (Py.truthy _); [|apply incl_refl].
  rewrite value_bind. apply incl_app_l.
Qed.

Lemma merge_more_extends (more found : list Py.str) :
  incl found
       (fold_left (fun found ent => if Py.mem ent found then found else found ++ [ent])
                  more found).
Proof.
  revert found; induction more as [|ent more IH]; intros found; cbn [fold_left].
  - apply incl_refl.
  - destruct (Py.mem ent found); [apply IH|].
    eapply incl_tran; [apply incl_app_l | apply IH].
Qed.

Lemma step_merge_extends query history (found : list Py.str) :
  incl found (value (step_merge kg query history found)).
Proof.
  unfold step_merge. destruct (_ && _); [|apply incl_refl].
  rewrite value_bind.
  eapply incl_tran; [apply probe_terms_extends | apply merge_more_extends].
Qed.

Lemma add_synonyms_extends query (found : list Py.str) :
  incl found (add_synonyms query found).
Proof.
  unfold add_synonyms. generalize SYNONYMS as table.
  intros table; revert found; induction table as [|[colloquial canonical] table IH];
    intros found; cbn [fold_left].
  - apply incl_refl.
  - destruct (_ && _); [|apply IH].
    eapply incl_tran; [apply incl_app_l | apply IH].
Qed.

Lemma step_graph_terms_extends query (found : list Py.str) :
  incl found (value (step_graph_terms kg query found)).
Proof.
  unfold step_graph_terms. destruct (KG.is_connected kg);
    [apply probe_terms_extends | apply incl_refl].
Qed.

(** The entities of the history-aware resolver, step by step. *)
Lemma resolver_value query history :
  _extract_entities_from_kg kg query history =
  Py.fromkeys
    (value (step_merge kg query history
       (value (step_aggressive kg query
          (value (step_history kg history
             (value (step_graph_terms kg query (step_lexicon query))))))))).
Proof.
  unfold _extract_entities_from_kg, _extract_entities_from_kg_traced.
  rewrite !value_bind. reflexivity.
Qed.


(** Two runs of the loop over the same candidate terms, the second from a
    longer list that the terms cannot tell from the first. *)
Lemma probe_terms_compare (terms small large : list Py.str) :
  incl small large ->
  (forall t, In t terms -> In t large -> In t small) ->
  incl (value (probe_terms kg terms small)) (value (probe_terms kg terms large)).
Proof.
  revert small large; induction terms as [|term rest IH];
    intros small large Hincl Hsame; cbn [probe_terms].
  - exact Hincl.
  - destruct (Py.mem term small) eqn:Es.
    + assert (Py.mem term large = true) as ->
          by (apply mem_In, Hincl, mem_In, Es).
      apply IH; [exact Hincl|]. intros t Ht. apply Hsame. right; exact Ht.
    + assert (Py.mem term large = false) as ->.
      { destruct (Py.mem term large) eqn:El; [|reflexivity].
        apply mem_In in El. apply Hsame in El; [|left; reflexivity].
        apply mem_In in El. congruence. }
      assert (forall d, incl (small ++ [d]) (large ++ [d])) as Hi.
      { intros d x Hx. apply in_app_iff in Hx. apply in_app_iff.
        destruct Hx as [Hx|Hx]; [left; apply Hincl, Hx | right; exact Hx]. }
      assert (forall d t, In t rest -> In t (large ++ [d]) -> In t (small ++ [d]))
        as Hs.
      { intros d t Ht Hl. apply in_app_iff in Hl. apply in_app_iff.
        destruct Hl as [Hl|Hl]; [left; apply Hsame; [right; exact Ht | exact Hl]
                                | right; exact Hl]. }
      rewrite !value_bind.
      change (value (search_disease kg term 1)) with (KG.search_disease kg term 1).
      destruct (KG.search_disease kg term 1) as [|d ds].
      * rewrite !value_bind.
        change (value (search_symptom kg term 1)) with (KG.search_symptom kg term 1).
        destruct (KG.search_symptom kg term 1) as [|s ss].
        -- apply IH; [exact Hincl|]. intros t Ht. apply Hsame. right; exact Ht.
        -- apply IH; [apply Hi | apply Hs].
      * apply IH; [apply Hi | apply Hs].
Qed.

End Resolution.

Section Claims_resolver.
Import Models QA Stated Scenario.



(** A hit of the lexicon or of the synonyms is still there after the
    search over the candidate substrings. *)
Lemma lexicon_hit_survives kg query :
  step_lexicon query <> [] ->
  value (step_graph_terms kg query (step_lexicon query)) <> [].
Proof.
  intros H E. pose proof (step_graph_terms_extends kg query (step_lexicon query)) as I.
  rewrite E in I. destruct (step_lexicon query) as [|x l]; [congruence|].
  apply (I x). left; reflexivity.
Qed.


(** C6 (as the code has it).  The entities of the current-turn-only
    resolver are among those of the history-aware resolver, for every
    history, provided that no candidate substring of the question is a
    canonical name which only the synonym step put among the entities. *)
Theorem query_only_entities_are_resolved
        (kg : KG.KnowledgeGraphService) (query : Py.str)
        (history : list ChatMessage) :
  (forall term, In term (Py.findall_cjk 2 6 query) ->
                In term (step_lexicon query) ->
                In term (_extract_entities query)) ->
  incl (_extract_entities_from_query_only kg query)
       (_extract_entities_from_kg kg query history).
Proof.
  intros H entity Hq.
  unfold _extract_entities_from_query_only,
    _extract_entities_from_query_only_traced in Hq.
  rewrite value_bind in Hq. cbn [value ret fst] in Hq.
  apply (proj1 (fromkeys_In _ _)) in Hq.
  rewrite resolver_value. apply (proj2 (fromkeys_In _ _)).
  apply step_merge_extends, step_aggressive_extends, step_history_extends.
  assert (incl (value (step_graph_terms kg query (_extract_entities query)))
               (value (step_graph_terms kg query (step_lexicon query)))) as I.
  { unfold step_graph_terms, step_lexicon. destruct (KG.is_connected kg).
    - apply probe_terms_compare; [apply add_synonyms_extends | exact H].
    - cbn [value ret fst]. apply add_synonyms_extends. }
  apply I, Hq.
Qed.

Lemma query_only_entities_are_resolved_witness :
  incl (_extract_entities_from_query_only graph_up (Py.u "我头痛"))
       (_extract_entities_from_kg graph_up (Py.u "我头痛") one_turn).
Proof.
  apply (query_only_entities_are_resolved graph_up (Py.u "我头痛") one_turn).
  intros term Ht Hl.
  apply mem_In. apply mem_In in Hl.
  vm_compute in Ht. destruct Ht as [<-|[]].
  vm_compute in Hl. discriminate.
Defined.

(** C6 (as stated) fails: the question holds [感冒], which the synonym
    step maps to [上呼吸道感染], and holds [上呼吸道感染] as a candidate
    substring.  The history-aware resolver skips the candidate, which it
    already has; the current-turn-only resolver sends it to the graph
    store and keeps the disease the store returns, which the other
    resolver never sees. *)
Lemma query_only_entity_not_resolved :
  one_turn <> [] /\
  In (Py.u "急性上呼吸道感染")
     (_extract_entities_from_query_only graph_up (Py.u "上呼吸道感染感冒")) /\
  ~ In (Py.u "急性上呼吸道感染")
       (_extract_entities_from_kg graph_up (Py.u "上呼吸道感染感冒") one_turn).
Proof.
  split; [discriminate|]. split.
  - apply mem_In. vm_compute. reflexivity.
  - intros H. apply mem_In in H. vm_compute in H. discriminate.
Qed.

End Claims_resolver.

(* ===================================================================== *)
(** ** Confidence and graph context *)
(* ===================================================================== *)

Section Substrings.

Lemma startswith_prefix (p s : Py.str) :
  Py.startswith p s = true <-> exists rest, s = p ++ rest.
Proof.
  revert s; induction p as [|x p IH]; intros s; simpl.
  - split; [intros _; exists s; reflexivity | reflexivity].
  - destruct s as [|y s].
    + split; [discriminate | intros [rest E]; discriminate].
    + rewrite andb_true_iff, N.eqb_eq, IH. split.
      * intros [-> [rest ->]]. exists rest. reflexivity.
      * intros [rest E]. injection E as -> ->. split; [reflexivity | eauto].
Qed.

(** [sub in s] holds exactly when [sub] is a block of [s]. *)
Lemma contains_occurs (sub s : Py.str) :
  Py.contains sub s = true <-> Stated.occurs_in sub s.
Proof.
  unfold Stated.occurs_in. induction s as [|c s IH]; simpl.
  - rewrite orb_false_r, startswith_prefix. split.
    + intros [rest E]. exists [], rest. exact E.
    + intros (before & after & E). destruct before; [|discriminate].
      exists after. exact E.
  - rewrite orb_true_iff, startswith_prefix, IH. split.
    + intros [[rest E]|(before & after & E)].
      * exists [], rest. exact E.
      * exists (c :: before), after. rewrite E. reflexivity.
    + intros (before & after & E). destruct before as [|b before].
      * left. exists after. exact E.
      * right. injection E as -> ->. eauto.
Qed.

End Substrings.

Section Claims_confidence.
Import Models QA Stated Scenario.
Open Scope Q_scope.








End Claims_confidence.

Section Claims_context.
Import Models QA Stated Scenario.







End Claims_context.

(* ===================================================================== *)
(** ** More on entity resolution *)
(* ===================================================================== *)

Section Resolver_degraded.
Import Models QA.
Variable kg : KG.KnowledgeGraphService.
Hypothesis down : KG.is_connected kg = false.

Lemma bind_ret_l {A B} (a : A) (f : A -> Traced B) : bind (ret a) f = f a.
Proof. unfold bind, ret. destruct (f a) as [b t]. reflexivity. Qed.

Lemma search_disease_down keyword limit : search_disease kg keyword limit = ret [].
Proof. unfold search_disease, KG.search_disease, ret. rewrite down. reflexivity. Qed.

Lemma search_symptom_down keyword limit : search_symptom kg keyword limit = ret [].
Proof. unfold search_symptom, KG.search_symptom, ret. rewrite down. reflexivity. Qed.

Lemma first_hit_down terms found : first_hit kg terms found = ret found.
Proof.
  induction terms as [|term rest IH]; cbn [first_hit]; [reflexivity|].
  destruct (Py.mem term found); [exact IH|].
  rewrite search_disease_down, bind_ret_l, search_symptom_down, bind_ret_l.
  exact IH.
Qed.

Lemma scan_history_down msgs found : scan_history kg msgs found = ret found.
Proof.
  induction msgs as [|msg rest IH]; cbn [scan_history]; [reflexivity|].
  destruct (negb _); [exact IH|].
  rewrite first_hit_down, bind_ret_l.
  destruct (Py.truthy found); [reflexivity | exact IH].
Qed.

Lemma ngram_row_down text n starts found :
  ngram_row kg text n starts found = ret found.
Proof.
  induction starts as [|i rest IH]; cbn [ngram_row]; [reflexivity|].
  destruct (Py.mem _ found); [exact IH|].
  rewrite search_disease_down, bind_ret_l. exact IH.
Qed.

Lemma ngram_scan_down text lengths found :
  ngram_scan kg text lengths found = ret found.
Proof.
  induction lengths as [|n rest IH]; cbn [ngram_scan]; [reflexivity|].
  rewrite ngram_row_down, bind_ret_l.
  destruct (Py.truthy found); [reflexivity | exact IH].
Qed.

Lemma step_aggressive_down query found :
  step_aggressive kg query found = ret found.
Proof.
  unfold step_aggressive.
  destruct (negb (Py.truthy found)) eqn:E; [|reflexivity].
  assert ((if Py.truthy
                (Py.strip (Py.strip_suffix_alt question_suffixes (Py.strip query)))
           then diseases <- search_disease kg
                  (Py.strip (Py.strip_suffix_alt question_suffixes (Py.strip query)))
                  3 ;; ret (found ++ diseases)
           else ret found) = ret found) as ->.
  { destruct (Py.truthy (Py.strip _)); [|reflexivity].
    rewrite search_disease_down, bind_ret_l, app_nil_r. reflexivity. }
  rewrite bind_ret_l, E. apply ngram_scan_down.
Qed.

End Resolver_degraded.

Section Resolver_facts.
Import Models QA Stated Scenario.

(** X1.  With the graph store unreachable the history-aware resolver
    sends nothing to the store, whatever the history, and returns the
    entities of the lexicon and of the synonym map, without duplicates;
    the current-turn-only resolver returns those of the lexicon. *)
Theorem resolver_degrades_to_lexicon
        (kg : KG.KnowledgeGraphService) (query : Py.str)
        (history : list ChatMessage) :
  KG.is_connected kg = false ->
  _extract_entities_from_kg_traced kg query history
  = (Py.fromkeys (step_lexicon query), []) /\
  _extract_entities_from_query_only_traced kg query
  = (Py.fromkeys (_extract_entities query), []).
Proof.
  intros D. split.
  - unfold _extract_entities_from_kg_traced.
    assert (step_graph_terms kg query (step_lexicon query) = ret (step_lexicon query))
      as -> by (unfold step_graph_terms; rewrite D; reflexivity).
    rewrite bind_ret_l.
    assert (step_history kg history (step_lexicon query) = ret (step_lexicon query))
      as ->.
    { unfold step_history. destruct (_ && _); [|reflexivity].
      apply scan_history_down, D. }
    rewrite bind_ret_l, (step_aggressive_down kg D), bind_ret_l.
    assert (step_merge kg query history (step_lexicon query)
            = ret (step_lexicon query)) as ->.
    { unfold step_merge. rewrite D, andb_false_r. reflexivity. }
    rewrite bind_ret_l. reflexivity.
  - unfold _extract_entities_from_query_only_traced, step_graph_terms.
    rewrite D, bind_ret_l. reflexivity.
Qed.

Lemma resolver_degrades_to_lexicon_witness :
  _extract_entities_from_kg_traced graph_down (Py.u "感冒头痛") one_turn
  = ([Py.u "头痛"; Py.u "感冒"; Py.u "上呼吸道感染"], []).
Proof.
  destruct (resolver_degrades_to_lexicon graph_down (Py.u "感冒头痛") one_turn)
    as [H _]; [reflexivity|].
  rewrite H. vm_compute. reflexivity.
Defined.

Lemma dedupe_from_NoDup (l seen : list Py.str) : NoDup (Py.dedupe_from seen l).
Proof.
  revert seen; induction l as [|x l IH]; intros seen; cbn [Py.dedupe_from].
  - constructor.
  - destruct (Py.mem x seen); [apply IH|].
    constructor; [|apply IH].
    intros H. apply dedupe_from_In in H. destruct H as [_ H].
    apply H. left; reflexivity.
Qed.

(** X2.  Both resolvers return every entity once: the list has no
    duplicates, and holds exactly the entities the steps found. *)
Theorem resolvers_return_each_entity_once
        (kg : KG.KnowledgeGraphService) (query : Py.str)
        (history : list ChatMessage) :
  NoDup (_extract_entities_from_kg kg query history) /\
  NoDup (_extract_entities_from_query_only kg query) /\
  (forall entity,
      In entity (_extract_entities_from_query_only kg query) <->
      In entity (value (step_graph_terms kg query (_extract_entities query)))).
Proof.
  split; [|split].
  - rewrite resolver_value. apply dedupe_from_NoDup.
  - unfold _extract_entities_from_query_only,
      _extract_entities_from_query_only_traced.
    rewrite value_bind. apply dedupe_from_NoDup.
  - intros entity.
    unfold _extract_entities_from_query_only,
      _extract_entities_from_query_only_traced.
    rewrite value_bind. apply fromkeys_In.
Qed.

End Resolver_facts.

(* ===================================================================== *)
(** ** More on the two entry points *)
(* ===================================================================== *)

Section Pipeline_facts.
Import Models QA Stated Scenario.






(** X9.  In template mode the answer reaches the client one character
    at a time: between the [generating] event and the [complete] event
    there is one [content] event for each character of the answer, in
    order, and each carries that character alone. *)
Theorem template_answer_is_typed_out (w : Services) (request : QueryRequest) :
  _llm_provider w = mock ->
  exists (m1 m2 : Py.str) (n : nat) (response : QueryResponse),
    process_query_stream w request =
    {| events :=
         [Searching m1; EvidenceFound n; Generating m2]
         ++ map (fun char => Content [char]) (answer response)
         ++ [Complete response];
       raised := None |}.
Proof.
  intros P.
  assert (fst (generate_stream w request (assemble_stream w request))
          = map (fun char => Content [char])
                (snd (generate_stream w request (assemble_stream w request)))) as G.
  { unfold generate_stream. rewrite P, type_out_value. cbn [fst snd].
    apply map_map. }
  exists (Py.u "正在检索知识图谱..."), (Py.u "正在生成回答..."),
    (length (ctx_evidence (assemble_stream w request))),
    (response_fields w request
       (ctx_evidence (assemble_stream w request))
       (ctx_kg_paths (assemble_stream w request))
       (ctx_kg_available (assemble_stream w request))
       (snd (generate_stream w request (assemble_stream w request)))).
  rewrite process_query_stream_value. cbv zeta. rewrite G. reflexivity.
Qed.

Lemma template_answer_is_typed_out_witness :
  exists (m1 m2 : Py.str) (n : nat) (response : QueryResponse),
    process_query_stream remembered (ask (Py.u "头痛") None) =
    {| events :=
         [Searching m1; EvidenceFound n; Generating m2]
         ++ map (fun char => Content [char]) (answer response)
         ++ [Complete response];
       raised := None |}.
Proof.
  apply (template_answer_is_typed_out remembered (ask (Py.u "头痛") None)).
  reflexivity.
Defined.

Lemma occurs_in_tail (x before : Py.str) : occurs_in x (before ++ x).
Proof. exists before, []. rewrite app_nil_r. reflexivity. Qed.

Lemma occurs_in_middle (x before after : Py.str) :
  occurs_in x (before ++ x ++ after).
Proof. exists before, after. reflexivity. Qed.

(** X10.  Every answer of the template strategy carries the notice that
    it was generated without an AI model; when graph context is given,
    the answer holds that context word for word. *)
Theorem template_answer_carries_notice_and_context
        (query : Py.str) (entities : list Py.str) (evidence : list Evidence)
        (kg_paths : list KGPath) (kg_context : Py.str) :
  occurs_in fallback_notice
    (_generate_mock_response query entities evidence kg_paths kg_context) /\
  (kg_context <> [] ->
   occurs_in kg_context
     (_generate_mock_response query entities evidence kg_paths kg_context)).
Proof.
  unfold _generate_mock_response. split.
  - destruct (Py.truthy kg_context); [apply occurs_in_middle|].
    repeat match goal with
           | |- occurs_in _ (if ?b then _ else _) => destruct b
           end; apply occurs_in_tail.
  - intros H. apply truthy_true_nonempty in H. rewrite H.
    unfold kg_response_head. rewrite <- !app_assoc. apply occurs_in_middle.
Qed.

Lemma template_answer_carries_notice_and_context_witness :
  occurs_in (Py.u "【头痛】")
    (_generate_mock_response (Py.u "头痛") [] [] [] (Py.u "【头痛】")).
Proof.
  apply (template_answer_carries_notice_and_context
           (Py.u "头痛") [] [] [] (Py.u "【头痛】")).
  vm_compute. discriminate.
Defined.

Lemma warnings_differ :
  warning_no_evidence <> warning_no_kg /\
  warning_no_evidence <> warning_kg_disconnected /\
  warning_no_kg <> warning_kg_disconnected.
Proof.
  repeat split; intros E; apply eqb_eq in E; vm_compute in E; discriminate.
Qed.

(** X11.  The warnings of a response say what was missing, no more and
    no less: the warning that the graph service is not connected is there
    exactly when it is not connected, the warning that no literature was
    found exactly when no evidence was retrieved, the warning that the
    graph has nothing exactly when no graph context was found. *)
Theorem warnings_tell_what_was_missing (w : Services) (request : QueryRequest) :
  exists response,
    process_query w request = Py.Return response /\
    (In warning_kg_disconnected (warnings response) <->
     KG.is_connected (kg_service w) = false) /\
    (In warning_no_evidence (warnings response) <->
     ctx_evidence (assemble w request) = []) /\
    (In warning_no_kg (warnings response) <->
     ctx_kg_available (assemble w request) = false).
Proof.
  destruct (process_query_returns w request) as (answer & _ & E).
  eexists. split; [exact E|].
  unfold response_fields; cbn [warnings]. unfold build_warnings.
  destruct warnings_differ as (D1 & D2 & D3). revert D1 D2 D3.
  generalize warning_no_evidence, warning_no_kg, warning_kg_disconnected.
  intros x y z D1 D2 D3.
  destruct (ctx_evidence (assemble w request)) as [|ev evs];
    destruct (ctx_kg_available (assemble w request));
    destruct (KG.is_connected (kg_service w));
    cbn [Py.truthy negb app In];
    repeat split; intros H;
      repeat match goal with
             | H : _ \/ _ |- _ => destruct H
             | H : False |- _ => destruct H
             end;
      try discriminate; try congruence; auto.
Qed.

End Pipeline_facts.

Section History_window.
Import Models QA Stated Scenario.







Section Cut.
Variables (w : Services) (request recent : QueryRequest).
Hypothesis Q : query recent = query request.
Hypothesis U : user_id recent = user_id request.
Hypothesis M : max_answers recent = max_answers request.
Hypothesis K : include_kg_paths recent = include_kg_paths request.
Hypothesis V : include_evidence recent = include_evidence request.
Hypothesis H : history recent = Py.last_n 6 (history request).










End Cut.



End History_window.

Section Path_facts.
Import Models Stated Scenario Shape.

Lemma firstn_keeps {A} (n : nat) (l : list A) (x : A) :
  In x (firstn n l) -> In x l.
Proof.
  revert l; induction n as [|n IH]; intros [|y l]; simpl; try tauto.
  intros [->|H]; [left; reflexivity | right; apply IH, H].
Qed.

Lemma firstn_le {A} (n : nat) (l : list A) : length (firstn n l) <= n.
Proof. rewrite length_firstn. lia. Qed.

Lemma disease_path_closed entity info : closed_path (KG.disease_path entity info).
Proof.
  unfold closed_path, KG.disease_path. cbn [nodes edges].
  set (ss := firstn 5 (KG.symptoms info)).
  set (ds := firstn 3 (KG.common_drugs info ++ KG.recommended_drugs info)).
  assert (length ss <= 5) as Ls by apply firstn_le.
  assert (length ds <= 3) as Ld by apply firstn_le.
  split; [|split].
  - rewrite !length_app, !length_map. clearbody ss ds. unfold Py.str in *. simpl. lia.
  - rewrite !length_app, !length_map. clearbody ss ds. unfold Py.str in *. simpl. lia.
  - intros edge He.
    apply in_app_iff in He. destruct He as [He|He];
      apply in_map_iff in He; destruct He as (x & <- & Hx);
      cbn [edge_source edge_target KG.has_symptom_edge].
    + split.
      * apply in_map_iff. eexists. split; cycle 1.
        { apply in_or_app. left. left. reflexivity. }
        reflexivity.
      * apply in_map_iff. exists (KG.symptom_node x). split; [reflexivity|].
        apply in_or_app. right. apply in_or_app. left.
        apply in_map. exact Hx.
    + split.
      * apply in_map_iff. eexists. split; cycle 1.
        { apply in_or_app. left. left. reflexivity. }
        reflexivity.
      * apply in_map_iff. eexists. split; cycle 1.
        { apply in_or_app. right. apply in_or_app. right.
          apply in_map_iff. exists x. split; [reflexivity | exact Hx]. }
        reflexivity.
Qed.

Lemma symptom_path_closed entity diseases :
  closed_path (KG.symptom_path entity diseases).
Proof.
  unfold closed_path, KG.symptom_path. cbn [nodes edges].
  set (ds := firstn 5 diseases).
  assert (length ds <= 5) as Ld by apply firstn_le.
  split; [|split].
  - clearbody ds. unfold Py.str in *. simpl. rewrite length_map. lia.
  - clearbody ds. unfold Py.str in *. simpl. rewrite !length_map. lia.
  - intros edge He.
    apply in_map_iff in He; destruct He as (x & <- & Hx).
    cbn [edge_source edge_target KG.has_symptom_edge].
    split.
    + apply in_map_iff. eexists. split; cycle 1.
      { right. apply in_map_iff. exists x. split; [reflexivity | exact Hx]. }
      reflexivity.
    + apply in_map_iff. exists (KG.symptom_node entity).
      split; [reflexivity | left; reflexivity].
Qed.

Lemma paths_of_closed kg entities path :
  In path (KG.paths_of kg entities) -> closed_path path.
Proof.
  induction entities as [|entity rest IH]; cbn [KG.paths_of]; [intros []|].
  destruct (KG.get_full_disease_info kg entity) as [info|].
  - destruct (Py.truthy (KG.description info)).
    + intros [<-|H]; [apply disease_path_closed | apply IH, H].
    + destruct (KG.get_diseases_by_symptom kg entity) as [|d ds];
        [exact IH|].
      intros [<-|H]; [apply symptom_path_closed | apply IH, H].
  - destruct (KG.get_diseases_by_symptom kg entity) as [|d ds]; [exact IH|].
    intros [<-|H]; [apply symptom_path_closed | apply IH, H].
Qed.

(** X15.  [find_paths_for_query] returns at most five paths, and none
    when the graph store is not connected.  Every path is a small closed
    graph: at most nine nodes, one edge less than nodes, and every edge
    joins two nodes of the path. *)
Theorem paths_are_closed_graphs
        (kg : KG.KnowledgeGraphService) (entities : list Py.str) :
  length (KG.find_paths_for_query kg entities) <= 5 /\
  (KG.is_connected kg = false -> KG.find_paths_for_query kg entities = []) /\
  forall path, In path (KG.find_paths_for_query kg entities) ->
    length (nodes path) <= 9 /\
    length (edges path) + 1 = length (nodes path) /\
    forall edge, In edge (edges path) ->
                 In (edge_source edge) (map node_id (nodes path)) /\
                 In (edge_target edge) (map node_id (nodes path)).
Proof.
  unfold KG.find_paths_for_query.
  destruct (KG.is_connected kg); cbn [negb].
  - split; [apply firstn_le|]. split; [discriminate|].
    intros path H. apply (paths_of_closed kg (firstn 5 entities)).
    eapply firstn_keeps; exact H.
  - split; [simpl; lia|]. split; [reflexivity|]. intros path [].
Qed.

Lemma paths_are_closed_graphs_witness :
  exists path,
    KG.find_paths_for_query graph_up [Py.u "头痛"] = [path] /\
    length (edges path) + 1 = length (nodes path).
Proof.
  eexists. split; [vm_compute; reflexivity|].
  destruct (paths_are_closed_graphs graph_up [Py.u "头痛"]) as (_ & _ & H).
  refine (proj1 (proj2 (H _ _))).
  vm_compute. left. reflexivity.
Defined.

End Path_facts.

Section Candidate_terms.
Import Models QA Stated.




Variable kg : KG.KnowledgeGraphService.







Lemma value_ret {X} (x : X) : value (ret x) = x.
Proof. reflexivity. Qed.


Lemma query_only_value query :
  _extract_entities_from_query_only kg query
  = Py.fromkeys (value (step_graph_terms kg query (_extract_entities query))).
Proof.
  unfold _extract_entities_from_query_only,
    _extract_entities_from_query_only_traced.
  rewrite value_bind. apply value_ret.
Qed.

(** The lexicon scan returns the terms of the table that occur in the
    question. *)
Lemma extract_entities_In (query entity : Py.str) :
  In entity (_extract_entities query) <->
  In entity medical_terms /\ occurs_in entity query.
Proof.
  unfold _extract_entities. rewrite filter_In, contains_occurs. reflexivity.
Qed.


Lemma synonyms_fold (table : list (Py.str * Py.str)) (query : Py.str)
      (found : list Py.str) :
  incl found
       (fold_left
          (fun found (entry : Py.str * Py.str) =>
             let (colloquial, canonical) := entry in
             if Py.contains colloquial query && negb (Py.mem canonical found)
             then found ++ [canonical]
             else found)
          table found) /\
  forall colloquial canonical,
    In (colloquial, canonical) table ->
    Py.contains colloquial query = true ->
    In canonical
       (fold_left
          (fun found (entry : Py.str * Py.str) =>
             let (colloquial, canonical) := entry in
             if Py.contains colloquial query && negb (Py.mem canonical found)
             then found ++ [canonical]
             else found)
          table found).
Proof.
  revert found. induction table as [|[c k] table IH]; intros found;
    cbn [fold_left].
  - split; [apply incl_refl | intros ? ? []].
  - destruct (IH (if Py.contains c query && negb (Py.mem k found)
                  then found ++ [k] else found)) as [I S].
    assert (incl found (if Py.contains c query && negb (Py.mem k found)
                        then found ++ [k] else found)) as I0.
    { destruct (_ && _); [apply incl_app_l | apply incl_refl]. }
    split; [eapply incl_tran; [exact I0 | exact I]|].
    intros colloquial canonical [E|H] C; [|apply (S _ _ H C)].
    inversion E; subst. apply I. rewrite C. cbn [andb].
    destruct (Py.mem canonical found) eqn:M; cbn [negb].
    + apply mem_In, M.
    + apply in_or_app. right. left. reflexivity.
Qed.

(** X4.  What the lexicon and the synonym table find is never lost:
    every term of the lexicon that occurs in the question is among the
    entities both resolvers return, and the canonical name of every
    colloquial name that occurs in the question is among the entities
    the history-aware resolver returns. *)
Theorem lexicon_and_synonym_hits_are_returned
        (query : Py.str) (history : list ChatMessage) :
  (forall term,
      In term medical_terms -> occurs_in term query ->
      In term (_extract_entities_from_kg kg query history) /\
      In term (_extract_entities_from_query_only kg query)) /\
  (forall colloquial canonical,
      In (colloquial, canonical) SYNONYMS -> occurs_in colloquial query ->
      In canonical (_extract_entities_from_kg kg query history)).
Proof.
  assert (incl (step_lexicon query) (_extract_entities_from_kg kg query history))
    as Kept.
  { intros e He. rewrite resolver_value. apply (proj2 (fromkeys_In _ _)).
    apply step_merge_extends, step_aggressive_extends, step_history_extends,
      step_graph_terms_extends, He. }
  split.
  - intros term T O.
    pose proof (proj2 (extract_entities_In query term) (conj T O)) as L.
    split.
    + apply Kept. unfold step_lexicon, add_synonyms.
      apply (proj1 (synonyms_fold SYNONYMS query (_extract_entities query))), L.
    + rewrite query_only_value. apply (proj2 (fromkeys_In _ _)).
      apply step_graph_terms_extends, L.
  - intros colloquial canonical S O. apply Kept.
    unfold step_lexicon, add_synonyms.
    apply (proj2 (synonyms_fold SYNONYMS query (_extract_entities query))
                 colloquial canonical S).
    exact (proj2 (contains_occurs colloquial query) O).
Qed.

End Candidate_terms.

Section Candidate_witnesses.
Import Models QA Stated Scenario.

Lemma lexicon_and_synonym_hits_are_returned_witness :
  In (Py.u "上呼吸道感染")
     (_extract_entities_from_kg graph_up (Py.u "我感冒了") one_turn).
Proof.
  apply (proj2 (lexicon_and_synonym_hits_are_returned
                  graph_up (Py.u "我感冒了") one_turn)
               (Py.u "感冒") (Py.u "上呼吸道感染")).
  - do 5 right. left. reflexivity.
  - exists (Py.u "我"), (Py.u "了"). vm_compute. reflexivity.
Defined.

End Candidate_witnesses.

(* ===================================================================== *)
(** ** The stable descending sort *)
(* ===================================================================== *)

Section Sort_facts.
Import Sorting.
Context {A : Type}.
Variable leb : A -> A -> bool.
Hypothesis leb_total : forall x y, leb x y = true \/ leb y x = true.
Hypothesis leb_trans :
  forall x y z, leb x y = true -> leb y z = true -> leb x z = true.

Lemma insert_desc_perm (x : A) (l : list A) :
  Permutation (insert_desc leb x l) (x :: l).
Proof.
  induction l as [|y l IH]; cbn [insert_desc]; [reflexivity|].
  destruct (leb y x); [reflexivity|].
  rewrite IH. apply perm_swap.
Qed.

Lemma sort_desc_perm (l : list A) : Permutation (sort_desc leb l) l.
Proof.
  induction l as [|x l IH]; cbn [sort_desc]; [reflexivity|].
  rewrite insert_desc_perm, IH. reflexivity.
Qed.

Lemma sort_desc_In (l : list A) (x : A) : In x (sort_desc leb l) <-> In x l.
Proof.
  split; apply Permutation_in;
    [apply sort_desc_perm | apply Permutation_sym, sort_desc_perm].
Qed.

Lemma insert_desc_sorted (x : A) (l : list A) :
  StronglySorted (fun a b => leb b a = true) l ->
  StronglySorted (fun a b => leb b a = true) (insert_desc leb x l).
Proof.
  induction 1 as [|y l S IH F]; cbn [insert_desc].
  - constructor; constructor.
  - destruct (leb y x) eqn:E.
    + constructor; [constructor; assumption|].
      constructor; [exact E|].
      rewrite Forall_forall in F |- *. intros z Hz.
      apply (leb_trans z y x); [apply F, Hz | exact E].
    + constructor; [exact IH|].
      rewrite Forall_forall in F |- *. intros z Hz.
      apply (Permutation_in _ (insert_desc_perm x l)) in Hz.
      destruct Hz as [<-|Hz]; [|apply F, Hz].
      destruct (leb_total x y) as [T|T]; [exact T | congruence].
Qed.

Lemma sort_desc_sorted (l : list A) :
  StronglySorted (fun a b => leb b a = true) (sort_desc leb l).
Proof.
  induction l as [|x l IH]; cbn [sort_desc];
    [constructor | apply insert_desc_sorted, IH].
Qed.

(** Elements with the key of [z] keep their order. *)
Lemma insert_desc_stable (z x : A) (l : list A) :
  filter (fun y => leb z y && leb y z) (insert_desc leb x l)
  = filter (fun y => leb z y && leb y z) (x :: l).
Proof.
  induction l as [|y l IH]; cbn [insert_desc]; [reflexivity|].
  destruct (leb y x) eqn:E; [reflexivity|].
  cbn [filter] in IH |- *. rewrite IH.
  destruct (leb z x && leb x z) eqn:Ex;
    destruct (leb z y && leb y z) eqn:Ey; try reflexivity.
  apply andb_true_iff in Ex, Ey.
  rewrite (leb_trans y z x) in E by tauto. discriminate.
Qed.

Lemma sort_desc_stable (z : A) (l : list A) :
  filter (fun y => leb z y && leb y z) (sort_desc leb l)
  = filter (fun y => leb z y && leb y z) l.
Proof.
  induction l as [|x l IH]; cbn [sort_desc]; [reflexivity|].
  rewrite insert_desc_stable. cbn [filter]. rewrite IH. reflexivity.
Qed.

(** What is cut off by [[:limit]] is no better than what is kept. *)
Lemma firstn_sorted_best (limit : nat) (l : list A) (x : A) :
  StronglySorted (fun a b => leb b a = true) l ->
  In x l ->
  In x (firstn limit l) \/
  (length (firstn limit l) = limit /\
   forall best, In best (firstn limit l) -> leb x best = true).
Proof.
  intros S. revert limit. induction S as [|y l S IH F]; intros limit Hx.
  - destruct Hx.
  - destruct limit as [|limit]; [right; split; [reflexivity | intros ? []]|].
    cbn [firstn]. destruct Hx as [<-|Hx]; [left; left; reflexivity|].
    destruct (IH limit Hx) as [H|[L B]].
    + left. right. exact H.
    + right. split; [cbn [length]; rewrite L; reflexivity|].
      intros best [<-|Hb]; [|apply B, Hb].
      rewrite Forall_forall in F. apply F, Hx.
Qed.

Lemma firstn_sorted (limit : nat) (l : list A) :
  StronglySorted (fun a b => leb b a = true) l ->
  StronglySorted (fun a b => leb b a = true) (firstn limit l).
Proof.
  intros S. revert limit. induction S as [|y l S IH F]; intros [|limit];
    cbn [firstn]; try constructor.
  - apply IH.
  - rewrite Forall_forall in F |- *. intros z Hz. apply F.
    rewrite <- (firstn_skipn limit l). apply in_or_app. left. exact Hz.
Qed.

End Sort_facts.

(* ===================================================================== *)
(** ** The literature search *)
(* ===================================================================== *)

Section Vector_facts.
Import Models Vector Found Stated.
Variable lower : Py.str -> Py.str.

Lemma by_score_total (x y : Doc * nat) :
  by_score x y = true \/ by_score y x = true.
Proof. unfold by_score. rewrite !Nat.leb_le. lia. Qed.

Lemma by_score_trans (x y z : Doc * nat) :
  by_score x y = true -> by_score y z = true -> by_score x z = true.
Proof. unfold by_score. rewrite !Nat.leb_le. lia. Qed.

Lemma scored_docs_In docs kws doc s :
  In (doc, s) (scored_docs lower docs kws) <->
  In doc docs /\ s = score lower doc kws /\ 0 < s.
Proof.
  induction docs as [|d docs IH]; cbn [scored_docs]; [simpl; tauto|].
  cbv zeta. destruct (0 <? score lower d kws) eqn:E.
  - apply Nat.ltb_lt in E. cbn [In]. rewrite IH. split.
    + intros [H|H]; [inversion H; subst; auto | tauto].
    + intros ([->|H] & -> & P); [left; reflexivity | right; auto].
  - apply Nat.ltb_ge in E. rewrite IH. cbn [In]. split; [tauto|].
    intros ([->|H] & -> & P); [lia | auto].
Qed.

Lemma new_Evidence_returns source source_type snippet pmid doi url confidence
      publication_date section :
  Qle_bool 0 confidence && Qle_bool confidence 1 = true ->
  exists evidence,
    new_Evidence source source_type snippet pmid doi url confidence
                 publication_date section = Py.Return evidence /\
    Models.source evidence = source /\
    Models.source_type evidence = source_type /\
    Models.snippet evidence = snippet /\
    Models.pmid evidence = pmid /\
    Models.doi evidence = doi /\
    Models.url evidence = url /\
    Models.confidence evidence = confidence /\
    Models.publication_date evidence = publication_date /\
    Models.section evidence = section.
Proof.
  intros H. unfold new_Evidence.
  generalize (@eq_refl bool (Qle_bool 0 confidence && Qle_bool confidence 1)).
  generalize (Qle_bool 0 confidence && Qle_bool confidence 1) at 2 3.
  intros checked. destruct checked; intros passed.
  - eexists. split; [reflexivity|]. cbn. repeat split.
  - congruence.
Qed.

Lemma new_Evidence_fields source source_type snippet pmid doi url confidence
      publication_date section evidence :
  new_Evidence source source_type snippet pmid doi url confidence
               publication_date section = Py.Return evidence ->
  Models.snippet evidence = snippet /\ Models.section evidence = section.
Proof.
  unfold new_Evidence.
  generalize (@eq_refl bool (Qle_bool 0 confidence && Qle_bool confidence 1)).
  generalize (Qle_bool 0 confidence && Qle_bool confidence 1) at 2 3.
  intros checked. destruct checked; intros passed R; [|discriminate].
  apply Return_inj in R. subst evidence. split; reflexivity.
Qed.

Lemma evidence_of_returns doc :
  Qle_bool 0 (confidence_of doc) && Qle_bool (confidence_of doc) 1 = true ->
  exists evidence, evidence_of doc = Py.Return evidence /\ made_from doc evidence.
Proof.
  intros H. unfold evidence_of, made_from.
  destruct (new_Evidence_returns
              (doc_source doc) (source_type_of doc) (snippet_of doc)
              (doc_pmid doc) (doc_doi doc) (doc_url doc) (confidence_of doc)
              (doc_year doc) (Some (doc_title doc)) H) as (evidence & E & F).
  exists evidence. split; [exact E | exact F].
Qed.

Lemma collect_returns top results :
  (forall doc, In doc (map fst top) ->
               Qle_bool 0 (confidence_of doc) && Qle_bool (confidence_of doc) 1 = true) ->
  exists more,
    collect top results = Py.Return (results ++ more) /\
    Forall2 made_from (map fst top) more.
Proof.
  revert results. induction top as [|[doc s] top IH]; intros results V.
  - exists []. rewrite app_nil_r. split; [reflexivity | constructor].
  - cbn [collect].
    destruct (evidence_of_returns doc) as (evidence & E & M);
      [apply V; left; reflexivity|].
    rewrite E. cbn [Py.bind].
    destruct (IH (results ++ [evidence])) as (more & C & F);
      [intros d Hd; apply V; right; exact Hd|].
    exists (evidence :: more). rewrite C, <- app_assoc. split; [reflexivity|].
    constructor; assumption.
Qed.

Lemma sorted_by_score (cut : list (Doc * nat)) kws :
  (forall p, In p cut -> snd p = score lower (fst p) kws) ->
  StronglySorted (fun a b => by_score b a = true) cut ->
  StronglySorted (fun a b => score lower b kws <= score lower a kws)
                 (map fst cut).
Proof.
  intros K S. induction S as [|p cut S IH F]; cbn [map]; constructor.
  - apply IH. intros q Hq. apply K. right. exact Hq.
  - rewrite Forall_forall in F |- *. intros d Hd.
    apply in_map_iff in Hd. destruct Hd as (q & <- & Hq).
    specialize (F q Hq). unfold by_score in F. apply Nat.leb_le in F.
    rewrite <- (K p) by (left; reflexivity).
    rewrite <- (K q) by (right; exact Hq). exact F.
Qed.

Lemma Forall2_right {X Y} (R : X -> Y -> Prop) (l : list X) (l' : list Y) :
  Forall2 R l l' -> forall y, In y l' -> exists x, In x l /\ R x y.
Proof.
  induction 1 as [|x y l l' H F IH]; intros z []; subst.
  - exists x. split; [left; reflexivity | exact H].
  - destruct (IH z H0) as (x' & Hx & Rx). exists x'. split; [right; exact Hx | exact Rx].
Qed.

(** The documents selected, with their scores. *)
Lemma selection_members docs kws limit p :
  In p (firstn limit (Sorting.sort_desc by_score (scored_docs lower docs kws))) ->
  In (fst p) docs /\ snd p = score lower (fst p) kws /\ 0 < snd p.
Proof.
  intros Hp. apply firstn_keeps in Hp.
  apply (proj1 (sort_desc_In by_score _ _)) in Hp.
  destruct p as [d s].
  apply (proj1 (scored_docs_In _ _ _ _)) in Hp. exact Hp.
Qed.

Lemma search_selection self query keywords limit :
  _mock_mode self = true ->
  (forall doc, In doc (_mock_documents self) ->
               Qle_bool 0 (confidence_of doc) && Qle_bool (confidence_of doc) 1 = true) ->
  exists results,
    search_documents lower self query keywords limit = Py.Return results /\
    Forall2 made_from
      (map fst
         (firstn limit
            (Sorting.sort_desc by_score
               (scored_docs lower (_mock_documents self)
                  (all_keywords lower query keywords)))))
      results.
Proof.
  intros Mode V. unfold search_documents. rewrite Mode. cbv zeta.
  destruct (collect_returns
              (firstn limit
                 (Sorting.sort_desc by_score
                    (scored_docs lower (_mock_documents self)
                       (all_keywords lower query keywords)))) [])
    as (results & C & F).
  { intros d Hd. apply in_map_iff in Hd. destruct Hd as (p & <- & Hp).
    apply V. apply (selection_members _ _ _ _ Hp). }
  exists results. split; [exact C | exact F].
Qed.

(** X16.  In mock mode, when the confidence of every document of the
    table is within 0 and 1, the search returns: one evidence item for
    each of the documents it selected, in order, and at most [limit]
    of them.  The documents selected belong to the table and have a
    positive score; they come by decreasing score; and a document of
    the table with a positive score that was left out scores no more
    than any document selected, the selection being full. *)
Theorem search_returns_the_best_matches
        (self : VectorService) (query : Py.str) (keywords : list Py.str)
        (limit : nat) :
  _mock_mode self = true ->
  (forall doc, In doc (_mock_documents self) ->
               Qle_bool 0 (confidence_of doc) && Qle_bool (confidence_of doc) 1 = true) ->
  exists top results,
    search_documents lower self query keywords limit = Py.Return results /\
    Forall2 made_from top results /\
    length results <= limit /\
    (forall doc, In doc top ->
                 In doc (_mock_documents self) /\
                 0 < score lower doc (all_keywords lower query keywords)) /\
    StronglySorted
      (fun a b => score lower b (all_keywords lower query keywords)
                  <= score lower a (all_keywords lower query keywords)) top /\
    (forall doc,
        In doc (_mock_documents self) ->
        0 < score lower doc (all_keywords lower query keywords) ->
        In doc top \/
        (length top = limit /\
         forall best, In best top ->
                      score lower doc (all_keywords lower query keywords)
                      <= score lower best (all_keywords lower query keywords))).
Proof.
  intros Mode V.
  destruct (search_selection self query keywords limit Mode V)
    as (results & C & F).
  set (kws := all_keywords lower query keywords) in *.
  set (scored := scored_docs lower (_mock_documents self) kws) in *.
  set (sorted := Sorting.sort_desc by_score scored) in *.
  pose proof (selection_members (_mock_documents self) kws limit) as K.
  fold scored in K. fold sorted in K.
  pose proof (sort_desc_sorted by_score by_score_total by_score_trans scored)
    as S. fold sorted in S.
  exists (map fst (firstn limit sorted)), results.
  split; [exact C|]. split; [exact F|]. split; [|split; [|split]].
  - rewrite <- (Forall2_length F), length_map, length_firstn. lia.
  - intros d Hd. apply in_map_iff in Hd. destruct Hd as (p & <- & Hp).
    destruct (K p Hp) as (H1 & H2 & H3). rewrite <- H2. auto.
  - apply sorted_by_score.
    + intros p Hp. apply K, Hp.
    + apply firstn_sorted, S.
  - intros d Hd P.
    assert (In (d, score lower d kws) sorted) as Hs.
    { apply (proj2 (sort_desc_In by_score scored _)).
      apply (proj2 (scored_docs_In _ _ _ _)). auto. }
    destruct (firstn_sorted_best by_score limit sorted _ S Hs) as [H|[L B]].
    + left. apply in_map_iff. exists (d, score lower d kws). auto.
    + right. rewrite length_map. split; [exact L|].
      intros best Hb. apply in_map_iff in Hb. destruct Hb as (p & <- & Hp).
      specialize (B p Hp). unfold by_score in B. apply Nat.leb_le in B.
      cbn [snd] in B. destruct (K p Hp) as (_ & H2 & _).
      rewrite <- H2. exact B.
Qed.

Lemma shipped_confidences doc :
  In doc _init_mock_documents ->
  Qle_bool (91 # 100) (confidence_of doc) && Qle_bool (confidence_of doc) (99 # 100)
  = true /\
  (300 <? length (doc_content doc)) = false.
Proof.
  intros H. unfold _init_mock_documents in H.
  repeat (destruct H as [<-|H]; [split; vm_compute; reflexivity|]).
  destruct H.
Qed.

Lemma shipped_confidences_checked doc :
  In doc _init_mock_documents ->
  Qle_bool 0 (confidence_of doc) && Qle_bool (confidence_of doc) 1 = true.
Proof.
  intros H. apply shipped_confidences in H. destruct H as [H _].
  apply andb_true_iff in H. destruct H as [L U].
  apply Qle_bool_iff in L, U.
  apply andb_true_iff. split; apply Qle_bool_iff.
  - apply Qle_trans with (91 # 100); [discriminate | exact L].
  - apply Qle_trans with (99 # 100); [exact U | discriminate].
Qed.

Lemma score_from (doc : Doc) (kws : list Py.str) (start : nat) :
  fold_left
    (fun score kw =>
       let score :=
         if Py.contains kw (doc_text lower doc) then score + 2 else score in
       if Py.mem kw (map lower (doc_keywords doc)) then score + 3 else score)
    kws start
  = start + score lower doc kws.
Proof.
  unfold score. revert start.
  induction kws as [|kw kws IH]; intros start; cbn [fold_left]; [lia|].
  rewrite IH. symmetry. rewrite IH. cbv zeta.
  destruct (Py.contains kw (doc_text lower doc));
    destruct (Py.mem kw (map lower (doc_keywords doc))); lia.
Qed.

Lemma score_cons (doc : Doc) (kw : Py.str) (kws : list Py.str) :
  score lower doc (kw :: kws)
  = (if Py.contains kw (doc_text lower doc) then 2 else 0)
    + (if Py.mem kw (map lower (doc_keywords doc)) then 3 else 0)
    + score lower doc kws.
Proof.
  unfold score at 1. cbn [fold_left]. rewrite score_from. cbv zeta.
  destruct (Py.contains kw (doc_text lower doc));
    destruct (Py.mem kw (map lower (doc_keywords doc))); lia.
Qed.

(** X17.  The score of a document is positive exactly when the
    lower-cased question, or one of the lower-cased keywords given,
    occurs in its lower-cased title and content, or is one of its
    lower-cased keywords; and it is at most five points for each of
    them. *)
Theorem score_is_positive_on_a_match
        (doc : Doc) (query : Py.str) (keywords : list Py.str) :
  (0 < score lower doc (all_keywords lower query keywords) <->
   exists kw,
     (kw = lower query \/ In kw (map lower keywords)) /\
     (occurs_in kw (lower (doc_title doc ++ Py.u " " ++ doc_content doc)) \/
      In kw (map lower (doc_keywords doc)))) /\
  score lower doc (all_keywords lower query keywords)
  <= 5 * (1 + length keywords).
Proof.
  assert (all_keywords lower query keywords = lower query :: map lower keywords)
    as ->.
  { unfold all_keywords. destruct keywords; reflexivity. }
  assert (forall kws,
             (0 < score lower doc kws <->
              exists kw, In kw kws /\
                         (occurs_in kw (doc_text lower doc) \/
                          In kw (map lower (doc_keywords doc)))) /\
             score lower doc kws <= 5 * length kws) as G.
  { induction kws as [|kw kws [IH B]].
    - split; [|cbn; lia]. split; [cbn; lia | intros (kw & [] & _)].
    - rewrite score_cons. split.
      + split.
        * intros P.
          destruct (Py.contains kw (doc_text lower doc)) eqn:C.
          { exists kw. split; [left; reflexivity|]. left.
            apply contains_occurs, C. }
          destruct (Py.mem kw (map lower (doc_keywords doc))) eqn:M.
          { exists kw. split; [left; reflexivity|]. right.
            apply mem_In, M. }
          destruct (proj1 IH) as (kw' & H1 & H2); [lia|].
          exists kw'. split; [right; exact H1 | exact H2].
        * intros (kw' & [<-|H1] & H2).
          { destruct H2 as [H2|H2].
            - apply contains_occurs in H2. rewrite H2. lia.
            - apply mem_In in H2. rewrite H2.
              destruct (Py.contains kw (doc_text lower doc)); lia. }
          assert (0 < score lower doc kws) by (apply IH; eauto). lia.
      + cbn [length].
        destruct (Py.contains kw (doc_text lower doc));
          destruct (Py.mem kw (map lower (doc_keywords doc))); lia. }
  destruct (G (lower query :: map lower keywords)) as [I B]. split.
  - rewrite I. unfold doc_text. split.
    + intros (kw & [E|H1] & H2); exists kw; auto.
    + intros (kw & [E|H1] & H2); exists kw; (split; [|exact H2]);
        [left; symmetry; exact E | right; exact H1].
  - cbn [length] in B. rewrite length_map in B. lia.
Qed.

Lemma collect_made top results all :
  collect top results = Py.Return all ->
  exists more,
    all = results ++ more /\
    forall evidence, In evidence more ->
      exists p, In p top /\ evidence_of (fst p) = Py.Return evidence.
Proof.
  revert results. induction top as [|[doc s] top IH]; intros results C.
  - apply Return_inj in C. subst all. exists []. rewrite app_nil_r.
    split; [reflexivity | intros ? []].
  - cbn [collect] in C.
    destruct (evidence_of doc) as [evidence|e] eqn:E; cbn [Py.bind] in C;
      [|discriminate].
    destruct (IH _ C) as (more & -> & M).
    exists (evidence :: more). rewrite <- app_assoc. split; [reflexivity|].
    intros ev [<-|H].
    + exists (doc, s). split; [left; reflexivity | exact E].
    + destruct (M ev H) as (p & Hp & Ep). exists p. split; [right; exact Hp | exact Ep].
Qed.

Lemma snippet_of_short doc : length (snippet_of doc) <= 303.
Proof.
  unfold snippet_of. destruct (300 <? length (doc_content doc)) eqn:E.
  - rewrite length_app, length_firstn. change (length (Py.u "...")) with 3. lia.
  - apply Nat.ltb_ge in E. lia.
Qed.

Lemma snippet_of_prefix doc :
  firstn 300 (snippet_of doc) = firstn 300 (doc_content doc).
Proof.
  unfold snippet_of. destruct (300 <? length (doc_content doc)) eqn:E;
    [|reflexivity].
  apply Nat.ltb_lt in E.
  rewrite firstn_app, length_firstn.
  replace (300 - Nat.min 300 (length (doc_content doc))) with 0 by lia.
  rewrite firstn_O, app_nil_r, firstn_firstn.
  replace (Nat.min 300 300) with 300 by lia. reflexivity.
Qed.

(** X18.  Whatever the table holds, an evidence item returned by the
    search was made from a document of the table, named in its
    [section]; its snippet is never longer than 303 characters, starts
    like the content of the document, and is the whole content when that
    has no more than 300 characters. *)
Theorem snippets_are_cut_to_300
        (self : VectorService) (query : Py.str) (keywords : list Py.str)
        (limit : nat) (results : list Evidence) :
  search_documents lower self query keywords limit = Py.Return results ->
  forall evidence, In evidence results ->
    length (snippet evidence) <= 303 /\
    exists doc,
      In doc (_mock_documents self) /\
      section evidence = Some (doc_title doc) /\
      firstn 300 (snippet evidence) = firstn 300 (doc_content doc) /\
      (length (doc_content doc) <= 300 -> snippet evidence = doc_content doc).
Proof.
  unfold search_documents. destruct (_mock_mode self); cbv zeta.
  - intros C evidence H.
    destruct (collect_made _ _ _ C) as (more & -> & M).
    destruct (M evidence H) as (p & Hp & E).
    destruct (selection_members _ _ _ _ Hp) as (Hd & _).
    set (doc := fst p) in *. unfold evidence_of in E.
    apply new_Evidence_fields in E. destruct E as [-> ->].
    split; [apply snippet_of_short|].
    exists doc. split; [exact Hd|]. split; [reflexivity|].
    split; [apply snippet_of_prefix|].
    intros L. unfold snippet_of. apply Nat.ltb_ge in L. rewrite L. reflexivity.
  - intros R. apply Return_inj in R. subst results. intros ? [].
Qed.

(** X19.  The service as it is built never fails and never cuts a
    snippet: over the table of [_init_mock_documents] every search
    returns, at most [limit] items and at most ten, each with the whole
    content of a document of the table as its snippet and a confidence
    between 0.91 and 0.99. *)
Theorem shipped_search_never_fails
        (self : VectorService) (query : Py.str) (keywords : list Py.str)
        (limit : nat) :
  _mock_documents self = _init_mock_documents ->
  exists results,
    search_documents lower self query keywords limit = Py.Return results /\
    length results <= limit /\
    forall evidence, In evidence results ->
      (91 # 100 <= confidence evidence <= 99 # 100)%Q /\
      exists doc,
        In doc _init_mock_documents /\
        snippet evidence = doc_content doc /\
        section evidence = Some (doc_title doc).
Proof.
  intros T. destruct (_mock_mode self) eqn:Mode.
  - destruct (search_selection self query keywords limit Mode)
      as (results & E & F).
    { intros doc Hd. rewrite T in Hd. apply shipped_confidences_checked, Hd. }
    exists results. split; [exact E|].
    split; [rewrite <- (Forall2_length F), length_map, length_firstn; lia|].
    intros evidence H.
    destruct (Forall2_right _ _ _ F evidence H) as (doc & Hd & M).
    apply in_map_iff in Hd. destruct Hd as (p & <- & Hp).
    destruct (selection_members _ _ _ _ Hp) as (Ht & _). rewrite T in Ht.
    set (doc := fst p) in *.
    destruct (shipped_confidences doc Ht) as (C & S).
    destruct M as (_ & _ & Sn & _ & _ & _ & Cf & _ & Se).
    apply andb_true_iff in C. destruct C as [C1 C2].
    apply Qle_bool_iff in C1, C2. rewrite Cf.
    split; [split; assumption|].
    exists doc. split; [exact Ht|]. split; [|exact Se].
    rewrite Sn. unfold snippet_of. rewrite S. reflexivity.
  - exists []. unfold search_documents. rewrite Mode.
    split; [reflexivity|]. split; [cbn; lia | intros ? []].
Qed.

End Vector_facts.

Section Vector_witnesses.
Import Models Vector Found Stated.

Lemma search_returns_the_best_matches_witness :
  exists results,
    search_documents ascii_lower new_VectorService (Py.u "头痛") [] 3
    = Py.Return results /\
    map section results
    = [ Some (Py.u "偏头痛的诊断与治疗进展");
        Some (Py.u "紧张性头痛的流行病学与管理");
        Some (Py.u "头痛的危险信号与紧急就医指征") ].
Proof.
  destruct (search_returns_the_best_matches ascii_lower
              new_VectorService (Py.u "头痛") [] 3 eq_refl
              shipped_confidences_checked) as (top & results & E & _).
  exists results. split; [exact E|].
  vm_compute in E. apply Return_inj in E. subst results.
  vm_compute. reflexivity.
Defined.

Lemma snippets_are_cut_to_300_witness :
  exists results,
    search_documents ascii_lower new_VectorService (Py.u "布洛芬") [] 1
    = Py.Return results /\
    forall evidence, In evidence results -> length (snippet evidence) <= 303.
Proof.
  eexists. split; [vm_compute; reflexivity|].
  intros evidence H.
  refine (proj1 (snippets_are_cut_to_300 ascii_lower
                   new_VectorService (Py.u "布洛芬") [] 1 _ _ evidence H)).
  vm_compute. reflexivity.
Defined.

Lemma shipped_search_never_fails_witness :
  exists results,
    search_documents ascii_lower new_VectorService (Py.u "NSAIDs") [] 5
    = Py.Return results /\
    length results <= 5.
Proof.
  destruct (shipped_search_never_fails ascii_lower
              new_VectorService (Py.u "NSAIDs") [] 5 eq_refl)
    as (results & E & L & _).
  exists results. split; [exact E | exact L].
Defined.

End Vector_witnesses.

(* ===================================================================== *)
(** ** The graph shown to the user *)
(* ===================================================================== *)

Section Graph_facts.
Import Graph.
Variable lower : Py.str -> Py.str.

Lemma add_node_well i l t f :
  well_filled f ->
  well_filled (add_node i l t f) /\
  In i (map id (f_nodes (add_node i l t f))) /\
  (forall j, In j (map id (f_nodes f)) -> In j (map id (f_nodes (add_node i l t f)))) /\
  f_edges (add_node i l t f) = f_edges f.
Proof.
  intros (N & S & E). unfold add_node.
  destruct (Py.mem i (f_node_ids f)) eqn:M; cbn [negb].
  - apply mem_In in M. split; [exact (conj N (conj S E))|].
    split; [apply S, M|]. split; [auto | reflexivity].
  - assert (~ In i (map id (f_nodes f))) as Fresh.
    { intros H. apply S in H. apply mem_In in H. congruence. }
    unfold well_filled. cbn [f_nodes f_edges f_node_ids].
    rewrite !map_app. cbn [map id].
    split; [|split; [|split]].
    + split; [|split].
      * apply NoDup_app; [exact N | repeat constructor; intros [] | ].
        intros j Hj [<-|[]]. exact (Fresh Hj).
      * intros j. cbn [In]. rewrite in_app_iff, S. cbn [In]. tauto.
      * intros e He. destruct (E e He). rewrite !in_app_iff. tauto.
    + apply in_or_app. right. left. reflexivity.
    + intros j Hj. apply in_or_app. left. exact Hj.
    + reflexivity.
Qed.

Lemma add_record_well f record :
  well_filled f -> well_filled (add_record lower f record).
Proof.
  intros W. unfold add_record. cbv zeta.
  destruct (add_node_well (Py.u "disease_" ++ d_name record) (d_name record)
                          (first_label (d_labels record)) f W)
    as (W1 & I1 & K1 & E1).
  set (f1 := add_node (Py.u "disease_" ++ d_name record) (d_name record)
                      (first_label (d_labels record)) f) in *.
  destruct (add_node_well
              (lower (first_label (n_labels record)) ++ Py.u "_" ++ n_name record)
              (n_name record) (first_label (n_labels record)) f1 W1)
    as (W2 & I2 & K2 & E2).
  set (f2 := add_node _ (n_name record) (first_label (n_labels record)) f1) in *.
  destruct W2 as (N & S & E).
  split; [exact N|]. split; [exact S|].
  cbn [f_nodes f_edges]. intros e He. apply in_app_iff in He.
  destruct He as [He|[<-|[]]]; [apply E, He|].
  cbn [source target]. split; [apply K2, I1 | exact I2].
Qed.

Lemma fold_well records f :
  well_filled f -> well_filled (fold_left (add_record lower) records f).
Proof.
  revert f. induction records as [|r records IH]; intros f W; cbn [fold_left].
  - exact W.
  - apply IH, add_record_well, W.
Qed.

Lemma nothing_well : well_filled nothing.
Proof.
  split; [constructor|]. split; [intros; cbn; tauto | intros e []].
Qed.

Lemma fill_well session limit : well_filled (fill lower session limit).
Proof.
  unfold fill. destruct (run_disease_query session limit) as [rows|e];
    [|apply nothing_well].
  cbv zeta. destruct (Py.truthy (map fst rows)); [|apply nothing_well].
  destruct (run_rel_query session (map fst rows)) as [records|e];
    [|apply nothing_well].
  apply fold_well, nothing_well.
Qed.

Lemma NoDup_firstn {X} (n : nat) (l : list X) : NoDup l -> NoDup (firstn n l).
Proof.
  intros N. revert n. induction N as [|x l H N IH]; intros [|n]; cbn [firstn];
    try constructor.
  - intros Hx. apply H. eapply firstn_keeps, Hx.
  - apply IH.
Qed.

(** X20.  The graph returned for display is well formed whatever the
    store answers: it has at most [limit] nodes, no two nodes share an
    identifier, and every edge joins two nodes of the graph; it is empty
    when the store is not connected. *)
Theorem graph_data_is_well_formed
        (kg : KG.KnowledgeGraphService) (session : Session) (limit : nat) :
  length (nodes (get_graph_data lower kg session limit)) <= limit /\
  NoDup (map id (nodes (get_graph_data lower kg session limit))) /\
  (forall e, In e (edges (get_graph_data lower kg session limit)) ->
             In (source e) (map id (nodes (get_graph_data lower kg session limit))) /\
             In (target e) (map id (nodes (get_graph_data lower kg session limit)))) /\
  (KG.is_connected kg = false ->
   get_graph_data lower kg session limit = {| nodes := []; edges := [] |}).
Proof.
  unfold get_graph_data.
  destruct (KG.is_connected kg); cbn [negb].
  - destruct (fill_well session limit) as (N & S & E). cbv zeta.
    destruct (limit <? length (f_nodes (fill lower session limit))) eqn:L;
      cbn [nodes edges].
    + split; [rewrite length_firstn; lia|].
      split; [rewrite <- firstn_map; apply NoDup_firstn, N|].
      split; [|discriminate].
      intros e He. apply filter_In in He. destruct He as [_ He].
      apply andb_true_iff in He. destruct He as [H1 H2].
      apply mem_In in H1, H2. split; assumption.
    + apply Nat.ltb_ge in L. split; [exact L|]. split; [exact N|].
      split; [exact E | discriminate].
  - cbn [nodes edges length map]. split; [lia|]. split; [constructor|].
    split; [intros e [] | reflexivity].
Qed.

End Graph_facts.

Section Graph_witnesses.
Import Graph Sample Found Scenario.

Lemma graph_data_is_well_formed_witness :
  map id (nodes (get_graph_data ascii_lower graph_up one_disease 2))
  = [Py.u "disease_感冒"; Py.u "symptom_咳嗽"] /\
  map target (edges (get_graph_data ascii_lower graph_up one_disease 2))
  = [Py.u "symptom_咳嗽"] /\
  length (nodes (get_graph_data ascii_lower graph_up one_disease 2)) <= 2.
Proof.
  split; [vm_compute; reflexivity|]. split; [vm_compute; reflexivity|].
  exact (proj1 (graph_data_is_well_formed ascii_lower graph_up one_disease 2)).
Defined.

End Graph_witnesses.
